(** * thermod-monitor-mqtt: the packaging script [setup.py]

    A shallow embedding of [setup.py]: the two helper functions
    [get_version] and [get_readme], and the keyword arguments the script
    hands to [setuptools.setup].

    The script reads two files, so the file system is an explicit finite
    map from paths to files, and reading a file in text mode decodes it
    and translates its line endings.  Python exceptions are an explicit
    [Raise] outcome.

    [get_version] hands a line of the script to the builtin [exec].  What
    [exec] does with a source text is a parameter of the embedding, an
    [interpreter]: properties that hold whatever the line does are stated
    for every interpreter.  Properties of particular lines are stated for
    [python], an interpreter for the fragment of Python a version line is
    usually written in (names, short string literals, assignments, [;],
    comments, and reading a file back); a source outside that fragment
    yields [Unmodelled], about which nothing is said. *)

From Stdlib Require Import ZArith Ascii String List Bool Lia.
From stdpp Require Import gmap strings list fin_maps.

Local Open Scope Z_scope.

(** ** Outcomes of Python code *)

Inductive exn : Type :=
  | FileNotFoundError (path : string)
  | TypeError
  | SyntaxError
  | NameError (id : string)
  | KeyError (key : string)
  | PermissionError (path : string)
  | UnicodeDecodeError
  | OtherException (class : string).

Inductive result (A : Type) : Type :=
  | Return (a : A)
  | Raise (e : exn)
  | Unmodelled.

Arguments Return {A} a.
Arguments Raise {A} e.
Arguments Unmodelled {A}.

Global Instance result_ret : MRet result := fun A a => Return a.

Global Instance result_bind : MBind result := fun A B k r =>
  match r with
  | Return a => k a
  | Raise e => Raise e
  | Unmodelled => Unmodelled
  end.

(** The value of an outcome that also carries a state. *)
Definition value_of {A B : Type} (r : result (A * B)) : result A :=
  match r with
  | Return (a, _) => Return a
  | Raise e => Raise e
  | Unmodelled => Unmodelled
  end.

(** ** Text files *)

Definition LF : ascii := "010"%char.
Definition CR : ascii := "013"%char.

(** What is stored under a path: a file whose bytes decode (in the
    encoding that text mode uses) to [chars], line endings as stored; a
    file whose bytes do not decode; or something that [open] refuses with
    the error [refusal] (a file without read permission, a directory). *)
Inductive file : Type :=
  | TextFile (chars : string)
  | Undecodable
  | Unopenable (refusal : exn).

(** [open(path)] for reading in text mode: the file, [FileNotFoundError]
    when there is none, the refusal when it cannot be opened. *)
Definition open (fs : gmap string file) (path : string) : result file :=
  match fs !! path with
  | Some (Unopenable refusal) => Raise refusal
  | Some f => Return f
  | None => Raise (FileNotFoundError path)
  end.

(** Universal newlines: on reading, text mode turns every carriage return
    followed by a line feed, and every other carriage return, into one
    line feed. *)
Fixpoint universal_newlines (chars : string) : string :=
  match chars with
  | EmptyString => EmptyString
  | String c rest =>
      if Ascii.eqb c CR then
        match rest with
        | String c' rest' =>
            if Ascii.eqb c' LF then String LF (universal_newlines rest')
            else String LF (universal_newlines rest)
        | EmptyString => String LF EmptyString
        end
      else String c (universal_newlines rest)
  end.

(** [f.read()]: the whole text, or [UnicodeDecodeError]. *)
Definition read (f : file) : result string :=
  match f with
  | TextFile chars => Return (universal_newlines chars)
  | Undecodable => Raise UnicodeDecodeError
  | Unopenable _ => Unmodelled
  end.

(** Iterating over an open text file yields its lines, each with its line
    feed; only the last line may lack one. *)
Fixpoint readlines (text : string) : list string :=
  match text with
  | EmptyString => []
  | String c rest =>
      if Ascii.eqb c LF then String c EmptyString :: readlines rest
      else match readlines rest with
           | [] => [String c EmptyString]
           | l :: ls => String c l :: ls
           end
  end.

(** [for line in f]: the lines of the text.  A file is decoded piece by
    piece as the loop asks for lines, so where a file that does not decode
    fails depends on where the loop stops: that case is left open. *)
Definition iter_lines (f : file) : result (list string) :=
  match f with
  | TextFile chars => Return (readlines (universal_newlines chars))
  | Undecodable => Unmodelled
  | Unopenable _ => Unmodelled
  end.

(** ** [str.find] and [str.format] *)

(** [s.find(sub)]: the lowest index at which [sub] occurs in [s], or -1. *)
Fixpoint find_from (s sub : string) (i : Z) : Z :=
  if String.prefix sub s then i
  else match s with
       | EmptyString => -1
       | String _ s' => find_from s' sub (i + 1)
       end.

Definition find (s sub : string) : Z := find_from s sub 0.

Definition marker : string := "__version__".

(** The text ['# -*- coding: utf-8 -*-\n'] that precedes the placeholder. *)
Definition coding_header : string :=
  "# -*- coding: utf-8 -*-" +:+ String LF EmptyString.

(** ['# -*- coding: utf-8 -*-\n{}'.format(line)] *)
Definition format (line : string) : string := coding_header +:+ line.

(** ** The scan of [get_version]

    The [for] loop over the lines of the script, with its [break]:
    [version_str] keeps its initial value unless a line is selected. *)
Fixpoint scan (script : list string) (version_str : option string)
  : option string :=
  match script with
  | [] => version_str
  | line :: rest =>
      if find line marker =? 0 then Some (format line)
      else scan rest version_str
  end.

(** ** The builtin [exec] on a fragment of Python

    Values a namespace can hold: strings, the module of builtins that
    [exec] stores under ["__builtins__"], and any other object, known by
    its identity only. *)

Inductive pyval : Type :=
  | PyStr (s : string)
  | PyBuiltins
  | PyOther (id : N).

Global Instance pyval_eq_dec : EqDecision pyval.
Proof. solve_decision. Defined.

(** *** Characters *)

Definition code (c : ascii) : N := N_of_ascii c.

Definition TAB : ascii := "009"%char.
Definition SPACE : ascii := " "%char.
Definition HASH : ascii := "#"%char.
Definition EQUALS : ascii := "="%char.
Definition SEMI : ascii := ";"%char.
Definition SQUOTE : ascii := "'"%char.
Definition DQUOTE : ascii := "034"%char.
Definition BACKSLASH : ascii := "\"%char.
Definition LPAREN : ascii := "("%char.
Definition RPAREN : ascii := ")"%char.
Definition DOT : ascii := "."%char.

Definition is_blank (c : ascii) : bool :=
  Ascii.eqb c SPACE || Ascii.eqb c TAB.

Definition is_quote (c : ascii) : bool :=
  Ascii.eqb c SQUOTE || Ascii.eqb c DQUOTE.

Definition is_digit (c : ascii) : bool :=
  ((48 <=? code c) && (code c <=? 57))%N.

Definition is_name_start (c : ascii) : bool :=
  ((65 <=? code c) && (code c <=? 90))%N
  || ((97 <=? code c) && (code c <=? 122))%N
  || Ascii.eqb c "_"%char.

Definition is_name_char (c : ascii) : bool :=
  is_name_start c || is_digit c.

(** The characters of the fragment: printable ASCII, tab and line feed. *)
Definition is_source_char (c : ascii) : bool :=
  ((32 <=? code c) && (code c <=? 126))%N
  || Ascii.eqb c TAB || Ascii.eqb c LF.

Fixpoint string_forallb (p : ascii -> bool) (s : string) : bool :=
  match s with
  | EmptyString => true
  | String c s' => p c && string_forallb p s'
  end.

(** Names the fragment leaves alone: the keywords and constants of the
    language (of any Python 3 version), and the two names [exec] and the
    compiler treat specially. *)
Definition reserved_names : list string :=
  [ "False"; "None"; "True"; "and"; "as"; "assert"; "async"; "await";
    "break"; "class"; "continue"; "def"; "del"; "elif"; "else"; "except";
    "finally"; "for"; "from"; "global"; "if"; "import"; "in"; "is";
    "lambda"; "nonlocal"; "not"; "or"; "pass"; "raise"; "return"; "try";
    "while"; "with"; "yield"; "match"; "case"; "type"; "print"; "exec";
    "__debug__"; "__builtins__" ].

Definition is_reserved (n : string) : bool :=
  existsb (String.eqb n) reserved_names.

(** *** Tokens of one line *)

Inductive token : Type :=
  | TName (n : string)
  | TStr (s : string)
  | TEq
  | TSemi
  | TLParen
  | TRParen
  | TDot.

Global Instance token_eq_dec : EqDecision token.
Proof. solve_decision. Defined.

Inductive lexed : Type :=
  | Tokens (ts : list token)
  | LexSyntaxError
  | LexUnmodelled.

Definition emit (t : token) (r : lexed) : lexed :=
  match r with
  | Tokens ts => Tokens (t :: ts)
  | other => other
  end.

Definition emit_name (n : string) (r : lexed) : lexed :=
  if is_reserved n then LexUnmodelled else emit (TName n) r.

(** Where the tokenizer stands inside a line. *)
Inductive lex_state : Type :=
  | Between
  | InName (acc : string)
  | InString (quote : ascii) (acc : string).

Definition snoc (s : string) (c : ascii) : string :=
  s +:+ String c EmptyString.

(** The tokenizer reads a line (without its line feed) left to right and
    stops at the first thing that is an error or outside the fragment.
    A string literal is a short one, without escapes; three quotes in a row
    open a long string, which the fragment does not have. *)
Fixpoint lex (st : lex_state) (s : string) : lexed :=
  match s with
  | EmptyString =>
      match st with
      | Between => Tokens []
      | InName n => emit_name n (Tokens [])
      | InString _ _ => LexSyntaxError
      end
  | String c s' =>
      match st with
      | InString q acc =>
          if Ascii.eqb c q then emit (TStr acc) (lex Between s')
          else if Ascii.eqb c BACKSLASH then LexUnmodelled
          else lex (InString q (snoc acc c)) s'
      | InName n =>
          if is_name_char c then lex (InName (snoc n c)) s'
          else if is_blank c then emit_name n (lex Between s')
          else if Ascii.eqb c HASH then emit_name n (Tokens [])
          else if Ascii.eqb c SEMI then emit_name n (emit TSemi (lex Between s'))
          else if Ascii.eqb c EQUALS then
            match s' with
            | String c' _ =>
                if Ascii.eqb c' EQUALS then LexUnmodelled
                else emit_name n (emit TEq (lex Between s'))
            | EmptyString => emit_name n (emit TEq (lex Between s'))
            end
          else if Ascii.eqb c LPAREN then
            emit_name n (emit TLParen (lex Between s'))
          else if Ascii.eqb c RPAREN then
            emit_name n (emit TRParen (lex Between s'))
          else if Ascii.eqb c DOT then
            emit_name n (emit TDot (lex Between s'))
          else LexUnmodelled
      | Between =>
          if is_blank c then lex Between s'
          else if Ascii.eqb c HASH then Tokens []
          else if Ascii.eqb c SEMI then emit TSemi (lex Between s')
          else if Ascii.eqb c EQUALS then
            match s' with
            | String c' _ =>
                if Ascii.eqb c' EQUALS then LexUnmodelled
                else emit TEq (lex Between s')
            | EmptyString => emit TEq (lex Between s')
            end
          else if Ascii.eqb c LPAREN then emit TLParen (lex Between s')
          else if Ascii.eqb c RPAREN then emit TRParen (lex Between s')
          else if Ascii.eqb c DOT then emit TDot (lex Between s')
          else if is_quote c then
            match s' with
            | String c1 (String c2 _) =>
                if Ascii.eqb c1 c && Ascii.eqb c2 c then LexUnmodelled
                else lex (InString c EmptyString) s'
            | _ => lex (InString c EmptyString) s'
            end
          else if is_name_start c then lex (InName (String c EmptyString)) s'
          else LexUnmodelled
      end
  end.

(** *** Statements of one line *)

Inductive expr : Type :=
  | EName (n : string)
  | EStr (s : string)
  | ERead (path : string).

Inductive stmt : Type :=
  | SExpr (e : expr)
  | SAssign (targets : list string) (e : expr).

(** The pieces of a token list between occurrences of [sep]; there is
    always at least one piece. *)
Fixpoint split_at (sep : token) (ts : list token) : list (list token) :=
  match ts with
  | [] => [[]]
  | t :: rest =>
      if decide (t = sep) then [] :: split_at sep rest
      else match split_at sep rest with
           | piece :: pieces => (t :: piece) :: pieces
           | [] => [[t]]
           end
  end.

(** Adjacent string literals are one string. *)
Fixpoint parse_strings (ts : list token) : option string :=
  match ts with
  | [TStr s] => Some s
  | TStr s :: rest => s' ← parse_strings rest; Some (s +:+ s')
  | _ => None
  end.

(** An operand: a name, string literals, or [open('path').read()]. *)
Definition parse_operand (ts : list token) : option expr :=
  match ts with
  | [TName n] => Some (EName n)
  | [TName f; TLParen; TStr path; TRParen; TDot; TName m; TLParen; TRParen] =>
      if String.eqb f "open" && String.eqb m "read"
      then Some (ERead path) else None
  | _ => EStr <$> parse_strings ts
  end.

Definition as_target (e : expr) : option string :=
  match e with
  | EName n => Some n
  | _ => None
  end.

(** [t1 = ... = tk = e], or an expression on its own when [k] is 0. *)
Definition parse_stmt (ts : list token) : option stmt :=
  operands ← mapM parse_operand (split_at TEq ts);
  match reverse operands with
  | [] => None
  | [e] => Some (SExpr e)
  | e :: before =>
      targets ← mapM as_target (reverse before);
      Some (SAssign targets e)
  end.

(** Simple statements separated by [;], with an optional [;] at the end;
    an empty line has no statement. [None] is a syntax error. *)
Definition parse_line (ts : list token) : option (list stmt) :=
  match ts with
  | [] => Some []
  | _ =>
      match reverse (split_at TSemi ts) with
      | [] :: (piece :: pieces) => mapM parse_stmt (reverse (piece :: pieces))
      | pieces => mapM parse_stmt (reverse pieces)
      end
  end.

(** *** Compiling a source text *)

(** The lines of a source text, without their line feeds. *)
Fixpoint split_lines (s : string) : list string :=
  match s with
  | EmptyString => [EmptyString]
  | String c rest =>
      if Ascii.eqb c LF then EmptyString :: split_lines rest
      else match split_lines rest with
           | l :: ls => String c l :: ls
           | [] => [String c EmptyString]
           end
  end.

Definition starts_blank (line : string) : bool :=
  match line with
  | String c _ => is_blank c
  | EmptyString => false
  end.

Definition is_call_token (t : token) : bool :=
  match t with
  | TLParen | TRParen | TDot => true
  | _ => false
  end.

(** One line: its statements, [SyntaxError], or [Unmodelled].  A line that
    is indented is only in the fragment when it holds no token.  Of calls
    and attributes the fragment has one form only, so a line with
    parentheses or dots that is not of that form is left open. *)
Definition compile_line (line : string) : result (list stmt) :=
  match lex Between line with
  | LexUnmodelled => Unmodelled
  | LexSyntaxError => Raise SyntaxError
  | Tokens ts =>
      if starts_blank line then
        match ts with [] => Return [] | _ => Unmodelled end
      else match parse_line ts with
           | Some stmts => Return stmts
           | None =>
               if existsb is_call_token ts then Unmodelled
               else Raise SyntaxError
           end
  end.

Fixpoint compile_lines (lines : list string) : result (list stmt) :=
  match lines with
  | [] => Return []
  | line :: rest =>
      stmts ← compile_line line;
      more ← compile_lines rest;
      Return (stmts ++ more)
  end.

Definition compile (source : string) : result (list stmt) :=
  if string_forallb is_source_char source
  then compile_lines (split_lines source)
  else Unmodelled.

(** *** Running statements in a namespace *)

(** A name that is not bound in the namespace is looked up in the
    builtins next.  No builtin starts with the marker, so such a name is a
    [NameError]; the other names are left to the builtins, outside the
    fragment.  [open('path').read()] reads the file in text mode, unless
    the line has given [open] another meaning. *)
Definition eval (fs : gmap string file) (ns : gmap string pyval) (e : expr)
  : result pyval :=
  match e with
  | EStr s => Return (PyStr s)
  | EName n =>
      match ns !! n with
      | Some v => Return v
      | None =>
          if String.prefix marker n then Raise (NameError n) else Unmodelled
      end
  | ERead path =>
      match ns !! "open" with
      | Some _ => Unmodelled
      | None => f ← open fs path; text ← read f; Return (PyStr text)
      end
  end.

Definition assign (v : pyval) (ns : gmap string pyval) (targets : list string)
  : gmap string pyval :=
  foldl (fun ns t => <[t := v]> ns) ns targets.

Definition run_stmt (fs : gmap string file) (ns : gmap string pyval) (s : stmt)
  : result (gmap string pyval) :=
  match s with
  | SExpr e => _ ← eval fs ns e; Return ns
  | SAssign targets e => v ← eval fs ns e; Return (assign v ns targets)
  end.

Fixpoint run (fs : gmap string file) (ns : gmap string pyval)
    (prog : list stmt) : result (gmap string pyval) :=
  match prog with
  | [] => Return ns
  | s :: rest => ns' ← run_stmt fs ns s; run fs ns' rest
  end.

(** [globals.setdefault("__builtins__", builtins)], as [exec] does. *)
Definition with_builtins (globals : gmap string pyval) : gmap string pyval :=
  match globals !! "__builtins__" with
  | Some _ => globals
  | None => <["__builtins__" := PyBuiltins]> globals
  end.

(** *** Interpreters *)

(** What executing a source text in a namespace does: it ends with the
    namespace, and the file system, as the code has left them, or with an
    exception. *)
Definition interpreter : Type :=
  string -> gmap string pyval -> gmap string file ->
  result (gmap string pyval * gmap string file).

(** The interpreter of the fragment; it leaves the files as they are. *)
Definition python : interpreter := fun source globals fs =>
  prog ← compile source;
  ns ← run fs (with_builtins globals) prog;
  Return (ns, fs).

(** [exec(object, globals)].  An [object] that is [None] is a [TypeError];
    a source text is executed in [globals]. *)
Definition exec (E : interpreter) (object : option string)
    (globals : gmap string pyval) (fs : gmap string file)
  : result (gmap string pyval * gmap string file) :=
  match object with
  | None => Raise TypeError
  | Some source => E source globals fs
  end.

(** [d[key]] on a dict. *)
Definition getitem (d : gmap string pyval) (key : string) : result pyval :=
  match d !! key with
  | Some v => Return v
  | None => Raise (KeyError key)
  end.

(** ** The functions of [setup.py]

    Each takes the file system it runs in; [get_version] also gives back
    the file system that the executed line has left. *)

Definition get_version (E : interpreter) (fs : gmap string file)
  : result (pyval * gmap string file) :=
  let main_ns : gmap string pyval := ∅ in
  let version_str : option string := None in
  script ← open fs "thermod-monitor-mqtt";
  lines ← iter_lines script;
  let version_str := scan lines version_str in
  executed ← exec E version_str main_ns fs;
  v ← getitem executed.1 "__version__";
  Return (v, executed.2).

Definition get_readme (fs : gmap string file) : result string :=
  readme ← open fs "README.md";
  txt ← read readme;
  Return txt.

(** The keyword arguments of the call of [setup]. *)
Record setup_kwargs : Type := {
  name : string;
  version : pyval;
  description : string;
  author : string;
  author_email : string;
  long_description : string;
  long_description_content_type : string;
  url : string;
  license : string;
  classifiers : list string;
  scripts : list string;
  python_requires : string;
  install_requires : list string
}.

(** The module body: the arguments are evaluated in the order they are
    written, and [setup] is called with them if none of them raises. *)
Definition setup_py (E : interpreter) (fs : gmap string file)
  : result setup_kwargs :=
  versioned ← get_version E fs;
  txt ← get_readme versioned.2;
  Return {|
    name := "thermod-monitor-mqtt";
    version := versioned.1;
    description :=
      "Forward Thermod temperature and current status to an MQTT broker";
    author := "Simone Rossetto";
    author_email := "simros85@gmail.com";
    long_description := txt;
    long_description_content_type := "text/markdown";
    url := "https://github.com/droscy/thermod-monitor-mqtt";
    license := "GPL-3.0+";
    classifiers :=
      [ "Programming Language :: Python :: 3";
        "License :: OSI Approved :: GNU General Public License v3 or later (GPLv3+)";
        "Environment :: Console";
        "Intended Audience :: End Users/Desktop";
        "Operating System :: OS Independent";
        "Topic :: Home Automation" ];
    scripts := ["thermod-monitor-mqtt"];
    python_requires := ">=3.5";
    install_requires :=
      [ "thermod >=1.0.0, <2.0.0";
        "requests >=2.20.0";
        "paho-mqtt >=1.5.0" ]
  |}.

(** ** Requirement strings

    How the packaging toolchain reads the strings of [install_requires]
    and [python_requires] (PEP 508 and PEP 440), for final releases: a
    distribution name and a comma-separated list of version specifiers. *)

Inductive comparison_op : Type := OpGe | OpLe | OpGt | OpLt | OpEq | OpNe.

Global Instance comparison_op_eq_dec : EqDecision comparison_op.
Proof. solve_decision. Defined.

Fixpoint lstrip (s : string) : string :=
  match s with
  | String c s' => if is_blank c then lstrip s' else s
  | EmptyString => EmptyString
  end.

Definition strip (s : string) : string :=
  String.rev (lstrip (String.rev (lstrip s))).

Fixpoint split_char (sep : ascii) (s : string) : list string :=
  match s with
  | EmptyString => [EmptyString]
  | String c rest =>
      if Ascii.eqb c sep then EmptyString :: split_char sep rest
      else match split_char sep rest with
           | l :: ls => String c l :: ls
           | [] => [String c EmptyString]
           end
  end.

Fixpoint parse_nat_go (acc : nat) (s : string) : option nat :=
  match s with
  | EmptyString => Some acc
  | String c s' => d ← Ascii.is_nat c; parse_nat_go (10 * acc + d)%nat s'
  end.

Definition parse_nat (s : string) : option nat :=
  match s with
  | EmptyString => None
  | _ => parse_nat_go 0%nat s
  end.

(** ["1.0.0"] is the release [[1; 0; 0]]. *)
Definition parse_release (s : string) : option (list nat) :=
  mapM parse_nat (split_char "."%char s).

Definition parse_specifier (s : string) : option (comparison_op * list nat) :=
  match strip s with
  | String ">" (String "=" v) => r ← parse_release (strip v); Some (OpGe, r)
  | String "<" (String "=" v) => r ← parse_release (strip v); Some (OpLe, r)
  | String "=" (String "=" v) => r ← parse_release (strip v); Some (OpEq, r)
  | String "!" (String "=" v) => r ← parse_release (strip v); Some (OpNe, r)
  | String ">" v => r ← parse_release (strip v); Some (OpGt, r)
  | String "<" v => r ← parse_release (strip v); Some (OpLt, r)
  | _ => None
  end.

Definition parse_specifiers (s : string)
  : option (list (comparison_op * list nat)) :=
  mapM parse_specifier (split_char ","%char s).

Definition is_dist_char (c : ascii) : bool :=
  is_name_char c || Ascii.eqb c "-"%char || Ascii.eqb c "."%char.

Fixpoint span (p : ascii -> bool) (s : string) : string * string :=
  match s with
  | String c s' =>
      if p c then let '(a, b) := span p s' in (String c a, b)
      else (EmptyString, s)
  | EmptyString => (EmptyString, EmptyString)
  end.

Definition parse_requirement (s : string)
  : option (string * list (comparison_op * list nat)) :=
  let '(dist, rest) := span is_dist_char s in
  match dist with
  | EmptyString => None
  | _ => specs ← parse_specifiers rest; Some (dist, specs)
  end.

(** Releases compare component by component, a missing component being 0. *)
Fixpoint release_compare (a b : list nat) : comparison :=
  match a, b with
  | [], _ => if forallb (Nat.eqb 0) b then Eq else Lt
  | _, [] => if forallb (Nat.eqb 0) a then Eq else Gt
  | x :: a', y :: b' =>
      match Nat.compare x y with
      | Eq => release_compare a' b'
      | c => c
      end
  end.

Definition satisfies (v : list nat) (spec : comparison_op * list nat) : bool :=
  let c := release_compare v spec.2 in
  match spec.1 with
  | OpGe => negb (bool_decide (c = Lt))
  | OpLe => negb (bool_decide (c = Gt))
  | OpGt => bool_decide (c = Gt)
  | OpLt => bool_decide (c = Lt)
  | OpEq => bool_decide (c = Eq)
  | OpNe => negb (bool_decide (c = Eq))
  end.

Definition satisfies_all (v : list nat)
    (specs : list (comparison_op * list nat)) : bool :=
  forallb (satisfies v) specs.

(** ** Version lines that assign a string literal

    The lines of the form [__version__ = '...'], spelled out. *)

(** The body of a short string literal: anything of the fragment but the
    closing quote, a backslash and a line feed. *)
Definition literal_char (q c : ascii) : bool :=
  is_source_char c && negb (Ascii.eqb c q) && negb (Ascii.eqb c BACKSLASH)
  && negb (Ascii.eqb c LF).

(** Whether a text begins with the character [c]. *)
Definition starts_with (c : ascii) (s : string) : bool :=
  match s with
  | String d _ => Ascii.eqb d c
  | EmptyString => false
  end.

Definition comment_char (c : ascii) : bool :=
  is_source_char c && negb (Ascii.eqb c LF).

(** A comment up to the end of the line, or nothing. *)
Definition is_comment (s : string) : bool :=
  match s with
  | EmptyString => true
  | String c rest => Ascii.eqb c HASH && string_forallb comment_char rest
  end.

(** A version line without its line feed: the marker, [=], and the text
    [lit] between two quotes [q], with blanks [ws1], [ws2], [ws3] around
    them and a comment at the end. *)
Definition core (q : ascii) (ws1 ws2 ws3 lit comment : string) : string :=
  marker +:+ ws1 +:+ String EQUALS (ws2 +:+
    String q (lit +:+ String q (ws3 +:+ comment))).

(** [version_assignment line lit]: [line] is the marker, [=], and the
    string [lit] between single or double quotes, with optional blanks
    around them, an optional comment and an optional line feed. *)
Inductive version_assignment : string -> string -> Prop :=
  | VersionAssignment (q : ascii) (ws1 ws2 ws3 lit comment eol : string) :
      is_quote q = true ->
      string_forallb is_blank ws1 = true ->
      string_forallb is_blank ws2 = true ->
      string_forallb is_blank ws3 = true ->
      string_forallb (literal_char q) lit = true ->
      is_comment comment = true ->
      eol = EmptyString \/ eol = String LF EmptyString ->
      version_assignment (core q ws1 ws2 ws3 lit comment +:+ eol) lit.

(** ** Names a program assigns to *)

(** The names a statement list assigns to. *)
Definition targets_of (s : stmt) : list string :=
  match s with
  | SExpr _ => []
  | SAssign targets _ => targets
  end.

Definition assigned (prog : list stmt) : list string :=
  concat (targets_of <$> prog).

(** ** Example file systems *)

Definition script_without_version : string :=
  "#!/usr/bin/env python3
import sys
  __version__ = '0.0.1'
print(sys.argv)
".

Definition script_with_version : string :=
  "#!/usr/bin/env python3
__version__ = '1.2.3'
__date__ = '2020-10-21'
".

Definition readme_text : string :=
  "# MQTT monitor
".

Definition fs_without_version : gmap string file :=
  {[ "thermod-monitor-mqtt" := TextFile script_without_version;
     "README.md" := TextFile readme_text ]}.

Definition fs_with_version : gmap string file :=
  {[ "thermod-monitor-mqtt" := TextFile script_with_version;
     "README.md" := TextFile readme_text ]}.

Definition script_with_two_versions : string :=
  "# a different script
# with other lines
__version__ = '1.2.3'
__version__ = '9.9.9'
".

Definition script_with_version_extra : string :=
  "#!/usr/bin/env python3
__version__extra = '1.0'
".

Definition script_with_version_alias : string :=
  "#!/usr/bin/env python3
__version__tuple = __version__
".

(** ** Notions used to state further properties *)

(** The lines of a file put back together. *)
Definition concat_lines (ls : list string) : string :=
  foldr String.append EmptyString ls.

Definition not_lf (c : ascii) : bool := negb (Ascii.eqb c LF).

(** A version line, without its line feed, whose string literal is opened
    by the quote [q] and never closed. *)
Definition open_core (q : ascii) (ws1 ws2 body : string) : string :=
  marker +:+ ws1 +:+ String EQUALS (ws2 +:+ String q body).

Definition script_unterminated : string :=
  "#!/usr/bin/env python3
__version__ = '1.2.3
".

Definition fs_script_only : gmap string file :=
  {[ "thermod-monitor-mqtt" := TextFile script_with_version ]}.

Definition fs_readme_only : gmap string file :=
  {[ "README.md" := TextFile readme_text ]}.

Definition fs_readme_undecodable : gmap string file :=
  {[ "thermod-monitor-mqtt" := TextFile script_with_version;
     "README.md" := Undecodable ]}.

(** A script whose version line reads the script itself. *)
Definition script_reading_itself (last_line : string) : string :=
  "__version__ = open('thermod-monitor-mqtt').read()
" +:+ last_line.

(** A README with the line endings of three systems. *)
Definition readme_mixed_endings : string :=
  "a" +:+ String CR (String LF ("b" +:+ String CR ("c" +:+ String LF EmptyString))).

Definition not_cr (c : ascii) : bool := negb (Ascii.eqb c CR).

(** * Properties *)

(** ** The model at work *)

Example readlines_keeps_line_feeds :
  readlines "a
b" = ["a
"; "b"].
Proof. reflexivity. Qed.

Example find_absent : find "import sys" marker = -1.
Proof. reflexivity. Qed.

Example find_inside : find "print(__version__)" marker = 6.
Proof. reflexivity. Qed.

Example universal_newlines_mixed :
  universal_newlines readme_mixed_endings = "a
b
c
".
Proof. reflexivity. Qed.

Example exec_none (E : interpreter) (fs : gmap string file) :
  exec E None ∅ fs = Raise TypeError.
Proof. reflexivity. Qed.

Example python_chained_assignment :
  value_of (python "a = b = 'x' 'y'; c = a" ∅ ∅) =
    Return (<["c" := PyStr "xy"]> (<["b" := PyStr "xy"]> (<["a" := PyStr "xy"]>
      {["__builtins__" := PyBuiltins]}))).
Proof. by vm_compute. Qed.

Example python_unterminated_literal :
  python (format "__version__ = '1.0
") ∅ ∅ = Raise SyntaxError.
Proof. reflexivity. Qed.

Example python_call_is_outside :
  python (format "__version__ = str(1)
") ∅ ∅ = Unmodelled.
Proof. reflexivity. Qed.

Example python_escape_is_outside :
  python (format "__version__ = 'a\tb'
") ∅ ∅ = Unmodelled.
Proof. reflexivity. Qed.

Example python_read_missing_file :
  python "x = open('VERSION').read()" ∅ ∅ =
    Raise (FileNotFoundError "VERSION").
Proof. reflexivity. Qed.

Example python_open_rebound :
  python "open = 'x'; y = open('VERSION').read()" ∅ ∅ = Unmodelled.
Proof. reflexivity. Qed.

Example get_version_missing_file (E : interpreter) :
  get_version E ∅ = Raise (FileNotFoundError "thermod-monitor-mqtt").
Proof. reflexivity. Qed.

Example get_readme_undecodable :
  get_readme {[ "README.md" := Undecodable ]} = Raise UnicodeDecodeError.
Proof. reflexivity. Qed.

Example get_readme_unreadable :
  get_readme {[ "README.md" := Unopenable (PermissionError "README.md") ]}
    = Raise (PermissionError "README.md").
Proof. reflexivity. Qed.

(** ** Strings *)

Lemma str_app_cons (c : ascii) (s t : string) :
  String c s +:+ t = String c (s +:+ t).
Proof. reflexivity. Qed.

Lemma str_app_nil_l (s : string) : EmptyString +:+ s = s.
Proof. reflexivity. Qed.

Lemma str_app_nil_r (s : string) : s +:+ EmptyString = s.
Proof. induction s as [|c s IH]; [done|]. by rewrite str_app_cons, IH. Qed.

Lemma str_app_assoc (s t u : string) : (s +:+ t) +:+ u = s +:+ t +:+ u.
Proof. induction s as [|c s IH]; [done|]. by rewrite !str_app_cons, IH. Qed.

Lemma prefix_app (sub t : string) : String.prefix sub (sub +:+ t) = true.
Proof.
  induction sub as [|c sub IH]; [by destruct t|].
  rewrite str_app_cons. simpl. by destruct (ascii_dec c c).
Qed.

Lemma prefix_inv (sub s : string) :
  String.prefix sub s = true -> exists t, s = sub +:+ t.
Proof.
  revert s. induction sub as [|c sub IH]; intros s H.
  - by exists s.
  - destruct s as [|d s]; [done|]. simpl in H.
    destruct (ascii_dec c d) as [->|]; [|done].
    destruct (IH _ H) as [t ->]. by exists t.
Qed.

(** ** [str.find] *)

Lemma find_from_range (s sub : string) (i : Z) :
  find_from s sub i = -1 \/ i <= find_from s sub i.
Proof.
  revert i. induction s as [|c s IH]; intros i; cbn [find_from].
  - destruct (String.prefix sub EmptyString); lia.
  - destruct (String.prefix sub (String c s)); [lia|].
    destruct (IH (i + 1)); lia.
Qed.

(** The test of the loop, [line.find(marker) == 0], holds exactly of the
    lines that start with the marker. *)
Lemma find_zero (s sub : string) :
  find s sub = 0 <-> String.prefix sub s = true.
Proof.
  unfold find. destruct s as [|c s]; cbn [find_from].
  - destruct (String.prefix sub EmptyString); split; (done || lia).
  - destruct (String.prefix sub (String c s)); [done|].
    destruct (find_from_range s sub (0 + 1)); split; (done || lia).
Qed.

Lemma find_nonzero (s sub : string) :
  find s sub <> 0 <-> String.prefix sub s = false.
Proof. rewrite find_zero. by destruct (String.prefix sub s). Qed.

(** ** The scan *)

Lemma scan_skip (pre rest : list string) (v : option string) :
  Forall (fun l => String.prefix marker l = false) pre ->
  scan (pre ++ rest) v = scan rest v.
Proof.
  induction 1 as [|l pre Hl _ IH]; [done|]. simpl.
  apply find_nonzero in Hl. apply Z.eqb_neq in Hl. by rewrite Hl.
Qed.

Lemma scan_select (line : string) (rest : list string) (v : option string) :
  String.prefix marker line = true ->
  scan (line :: rest) v = Some (format line).
Proof. intros H. simpl. apply find_zero in H. by rewrite H. Qed.

Lemma scan_first (pre post : list string) (line : string) (v : option string) :
  Forall (fun l => String.prefix marker l = false) pre ->
  String.prefix marker line = true ->
  scan (pre ++ line :: post) v = Some (format line).
Proof. intros Hpre Hline. by rewrite scan_skip, scan_select. Qed.

Lemma scan_none (script : list string) :
  Forall (fun l => String.prefix marker l = false) script ->
  scan script None = None.
Proof.
  intros H. rewrite <- (app_nil_r script). by rewrite scan_skip.
Qed.

Lemma scan_drop (pre post : list string) (line : string) (v : option string) :
  find line marker <> 0 ->
  scan (pre ++ line :: post) v = scan (pre ++ post) v.
Proof.
  intros H. induction pre as [|l pre IH]; simpl.
  - apply Z.eqb_neq in H. by rewrite H.
  - by rewrite IH.
Qed.

Lemma scan_some (script : list string) (v src : option string) :
  scan script v = src -> src = v \/
  exists line, line ∈ script /\ find line marker = 0 /\ src = Some (format line).
Proof.
  revert src. induction script as [|l script IH]; intros src; simpl.
  - intros <-. by left.
  - destruct (find l marker =? 0) eqn:E.
    + intros <-. right. exists l. apply Z.eqb_eq in E. set_solver.
    + intros H. destruct (IH _ H) as [->|(line & ? & ? & ->)]; [by left|].
      right. exists line. set_solver.
Qed.

(** ** [get_version] and the module body, step by step *)

Lemma get_version_unfold (E : interpreter) (fs : gmap string file)
    (chars : string) :
  fs !! "thermod-monitor-mqtt" = Some (TextFile chars) ->
  get_version E fs =
    (executed ← exec E (scan (readlines (universal_newlines chars)) None) ∅ fs;
     v ← getitem executed.1 "__version__";
     Return (v, executed.2)).
Proof. intros H. unfold get_version, open. by rewrite H. Qed.

Lemma get_readme_unfold (fs : gmap string file) (chars : string) :
  fs !! "README.md" = Some (TextFile chars) ->
  get_readme fs = Return (universal_newlines chars).
Proof. intros H. unfold get_readme, open. by rewrite H. Qed.

(** [get_readme] returns only what it read from a file that decodes. *)
Lemma get_readme_inv (fs : gmap string file) (txt : string) :
  get_readme fs = Return txt ->
  exists chars, fs !! "README.md" = Some (TextFile chars) /\
                txt = universal_newlines chars.
Proof.
  unfold get_readme, open.
  destruct (fs !! "README.md") as [[chars| |?]|]; try done.
  intros [= <-]. by exists chars.
Qed.

(** [setup] is called only if [get_version] returned, and then with the
    value it returned. *)
Lemma setup_py_inv (E : interpreter) (fs : gmap string file)
    (kw : setup_kwargs) :
  setup_py E fs = Return kw ->
  (exists fs', get_version E fs = Return (version kw, fs') /\
               get_readme fs' = Return (long_description kw)) /\
  name kw = "thermod-monitor-mqtt" /\
  scripts kw = ["thermod-monitor-mqtt"] /\
  python_requires kw = ">=3.5" /\
  install_requires kw =
    ["thermod >=1.0.0, <2.0.0"; "requests >=2.20.0"; "paho-mqtt >=1.5.0"].
Proof.
  unfold setup_py. destruct (get_version E fs) as [[v fs']| |]; [|done..].
  simpl. destruct (get_readme fs') as [txt| |] eqn:Hr; [|done..].
  intros [= <-]. simpl. split; [|done]. by exists fs'.
Qed.

Lemma setup_py_raise (E : interpreter) (fs : gmap string file) (e : exn) :
  get_version E fs = Raise e -> setup_py E fs = Raise e.
Proof. intros H. unfold setup_py. by rewrite H. Qed.

Lemma setup_py_return (E : interpreter) (fs fs' : gmap string file)
    (v : pyval) (chars : string) :
  get_version E fs = Return (v, fs') ->
  fs' !! "README.md" = Some (TextFile chars) ->
  exists kw, setup_py E fs = Return kw /\
    version kw = v /\ long_description kw = universal_newlines chars /\
    name kw = "thermod-monitor-mqtt".
Proof.
  intros Hv Hr. unfold setup_py.
  rewrite Hv. simpl. rewrite (get_readme_unfold _ _ Hr). simpl. eauto.
Qed.

(** ** Failure without a version line, and the README *)

(** C2: when the file [thermod-monitor-mqtt] has no line that starts with
    [__version__], the scan leaves [version_str] at [None], [exec] receives
    [None] and raises [TypeError]; [get_version] raises it, and so does the
    module body, before [setup] is called. *)
Theorem get_version_without_marker
    (E : interpreter) (fs : gmap string file) (chars : string) :
  fs !! "thermod-monitor-mqtt" = Some (TextFile chars) ->
  Forall (fun line => String.prefix marker line = false)
         (readlines (universal_newlines chars)) ->
  scan (readlines (universal_newlines chars)) None = None /\
  get_version E fs = Raise TypeError /\
  setup_py E fs = Raise TypeError /\
  (forall kw, setup_py E fs <> Return kw).
Proof.
  intros Hfs Hlines.
  assert (get_version E fs = Raise TypeError) as Hv.
  { rewrite (get_version_unfold _ _ _ Hfs). by rewrite scan_none. }
  split; [by apply scan_none|]. split; [done|].
  rewrite (setup_py_raise _ _ _ Hv). by split.
Qed.

Lemma get_version_without_marker_witness :
  scan (readlines (universal_newlines script_without_version)) None = None /\
  get_version python fs_without_version = Raise TypeError /\
  setup_py python fs_without_version = Raise TypeError /\
  (forall kw, setup_py python fs_without_version <> Return kw).
Proof.
  apply (get_version_without_marker python fs_without_version
           script_without_version).
  - reflexivity.
  - vm_compute. repeat constructor.
Defined.

Lemma universal_newlines_id (chars : string) :
  string_forallb not_cr chars = true -> universal_newlines chars = chars.
Proof.
  induction chars as [|c rest IH]; [done|]. cbn [string_forallb].
  intros [Hc Hrest]%andb_true_iff. unfold not_cr in Hc.
  apply negb_true_iff in Hc. cbn [universal_newlines].
  by rewrite Hc, IH.
Qed.

(** C3, as the code has it: [get_readme] returns what a text-mode read of
    [README.md] gives, the decoded contents with every carriage return
    and line feed pair, and every other carriage return, turned into a
    line feed; the [long_description] that [setup] is called with is that
    text.  It is the contents of the file unchanged when the file has no
    carriage return. *)
Theorem long_description_is_readme
    (E : interpreter) (fs fs' : gmap string file) (v : pyval)
    (chars : string) :
  get_version E fs = Return (v, fs') ->
  fs' !! "README.md" = Some (TextFile chars) ->
  get_readme fs' = Return (universal_newlines chars) /\
  (exists kw, setup_py E fs = Return kw /\
     long_description kw = universal_newlines chars) /\
  (forall kw, setup_py E fs = Return kw ->
     long_description kw = universal_newlines chars) /\
  (string_forallb not_cr chars = true -> universal_newlines chars = chars).
Proof.
  intros Hv Hfs. pose proof (get_readme_unfold _ _ Hfs) as Hr.
  split; [done|]. split; [|split].
  - destruct (setup_py_return E fs fs' v chars Hv Hfs) as (kw & ? & _ & ? & _).
    eauto.
  - intros kw [(fs'' & Hv' & Hr') _]%setup_py_inv.
    rewrite Hv in Hv'. injection Hv' as _ <-. congruence.
  - apply universal_newlines_id.
Qed.

Lemma long_description_is_readme_witness :
  get_readme fs_with_version = Return (universal_newlines readme_text) /\
  (exists kw, setup_py python fs_with_version = Return kw /\
     long_description kw = universal_newlines readme_text) /\
  (forall kw, setup_py python fs_with_version = Return kw ->
     long_description kw = universal_newlines readme_text) /\
  (string_forallb not_cr readme_text = true ->
     universal_newlines readme_text = readme_text).
Proof.
  apply (long_description_is_readme python fs_with_version fs_with_version
           (PyStr "1.2.3") readme_text); reflexivity.
Defined.

(** C3, as it is stated, fails: a [README.md] with the contents
    [readme_mixed_endings], which has a carriage return before a line
    feed and one on its own, is not passed on character for character:
    [get_readme] returns it, and [setup] receives it, with line feeds
    only. *)
Lemma long_description_verbatim_counterexample :
  get_readme {[ "thermod-monitor-mqtt" := TextFile script_with_version;
                "README.md" := TextFile readme_mixed_endings ]}
    = Return "a
b
c
" /\
  (exists kw,
     setup_py python {[ "thermod-monitor-mqtt" := TextFile script_with_version;
                        "README.md" := TextFile readme_mixed_endings ]}
       = Return kw /\
     long_description kw = "a
b
c
" /\
     long_description kw <> readme_mixed_endings).
Proof.
  split; [reflexivity|]. eexists. split; [reflexivity|].
  split; [reflexivity|]. discriminate.
Qed.

(** ** Version specifiers *)

Lemma satisfies_ge (v r : list nat) :
  satisfies v (OpGe, r) = true <-> release_compare v r <> Lt.
Proof.
  unfold satisfies. simpl. destruct (release_compare v r); by compute.
Qed.

Lemma satisfies_lt (v r : list nat) :
  satisfies v (OpLt, r) = true <-> release_compare v r = Lt.
Proof.
  unfold satisfies. simpl. destruct (release_compare v r); by compute.
Qed.

Lemma release_compare_zeros (v : list nat) :
  release_compare v (replicate (length v) 0%nat) <> Lt.
Proof.
  induction v as [|x v IH]; [done|]. simpl.
  destruct (Nat.compare_spec x 0); (done || lia).
Qed.

Lemma release_compare_cons (x y : nat) (v r : list nat) :
  release_compare (x :: v) (y :: r) =
    match Nat.compare x y with Eq => release_compare v r | c => c end.
Proof. reflexivity. Qed.

(** C4: the call of [setup] declares exactly three requirements: [thermod]
    from 1.0.0 up to, not including, 2.0.0 (the releases with major version
    1), [requests] from 2.20.0 and [paho-mqtt] from 1.5.0. *)
Theorem install_requires_declared
    (E : interpreter) (fs : gmap string file) (kw : setup_kwargs) :
  setup_py E fs = Return kw ->
  install_requires kw =
    ["thermod >=1.0.0, <2.0.0"; "requests >=2.20.0"; "paho-mqtt >=1.5.0"] /\
  parse_requirement <$> install_requires kw =
    [ Some ("thermod", [(OpGe, [1; 0; 0]); (OpLt, [2; 0; 0])]);
      Some ("requests", [(OpGe, [2; 20; 0])]);
      Some ("paho-mqtt", [(OpGe, [1; 5; 0])]) ]%nat /\
  (forall major minor micro : nat,
     satisfies_all [major; minor; micro]
       [(OpGe, [1; 0; 0]); (OpLt, [2; 0; 0])]%nat = true <-> major = 1%nat).
Proof.
  intros (_ & _ & _ & _ & ->)%setup_py_inv.
  split; [done|]. split; [by vm_compute|].
  intros major minor micro. unfold satisfies_all. cbn [forallb].
  rewrite andb_true_r, andb_true_iff, satisfies_ge, satisfies_lt.
  rewrite (release_compare_cons major 1), (release_compare_cons major 2).
  destruct (Nat.compare_spec major 1) as [->|?|?].
  - split; [done|]. intros _. split; [|done].
    apply (release_compare_zeros [minor; micro]).
  - split; [by intros [? _]|lia].
  - destruct (Nat.compare_spec major 2) as [->|?|?].
    + split; [|lia]. intros [_ Hlt]. exfalso. revert Hlt.
      apply (release_compare_zeros [minor; micro]).
    + lia.
    + split; [by intros [_ ?]|lia].
Qed.

Lemma install_requires_declared_witness :
  exists kw, setup_py python fs_with_version = Return kw /\
  install_requires kw =
    ["thermod >=1.0.0, <2.0.0"; "requests >=2.20.0"; "paho-mqtt >=1.5.0"].
Proof.
  eexists. split; [reflexivity|].
  eapply (install_requires_declared python fs_with_version). reflexivity.
Defined.

(** C5: the call of [setup] declares one script, and it is named after the
    package: [scripts] is the one-element list of [name], which is
    [thermod-monitor-mqtt]. *)
Theorem scripts_is_package_name
    (E : interpreter) (fs : gmap string file) (kw : setup_kwargs) :
  setup_py E fs = Return kw ->
  scripts kw = [name kw] /\
  name kw = "thermod-monitor-mqtt" /\
  length (scripts kw) = 1%nat.
Proof.
  intros (_ & Hname & -> & _)%setup_py_inv. by rewrite Hname.
Qed.

Lemma scripts_is_package_name_witness :
  exists kw, setup_py python fs_with_version = Return kw /\ scripts kw = [name kw].
Proof.
  eexists. split; [reflexivity|].
  eapply (scripts_is_package_name python fs_with_version). reflexivity.
Defined.

(** C6: the call of [setup] declares a minimum interpreter version:
    [python_requires] is [>=3.5], the single specifier "at least 3.5". *)
Theorem python_requires_minimum
    (E : interpreter) (fs : gmap string file) (kw : setup_kwargs) :
  setup_py E fs = Return kw ->
  python_requires kw = ">=3.5" /\
  parse_specifiers (python_requires kw) = Some [(OpGe, [3; 5])]%nat /\
  (forall major minor : nat,
     satisfies_all [major; minor] [(OpGe, [3; 5])]%nat = true <->
     (3 < major \/ major = 3 /\ 5 <= minor)%nat).
Proof.
  intros (_ & _ & _ & -> & _)%setup_py_inv.
  split; [done|]. split; [by vm_compute|].
  intros major minor. unfold satisfies_all. cbn [forallb].
  rewrite andb_true_r, satisfies_ge, (release_compare_cons major 3).
  destruct (Nat.compare_spec major 3) as [->|?|?].
  - rewrite release_compare_cons. simpl.
    destruct (Nat.compare_spec minor 5); split; try done; try lia.
  - split; [done|lia].
  - split; [lia|done].
Qed.

Lemma python_requires_minimum_witness :
  exists kw, setup_py python fs_with_version = Return kw /\
  python_requires kw = ">=3.5".
Proof.
  eexists. split; [reflexivity|].
  eapply (python_requires_minimum python fs_with_version). reflexivity.
Defined.

(** ** Which line the scan selects *)

Lemma format_inj (l1 l2 : string) : format l1 = format l2 -> l1 = l2.
Proof. unfold format. apply (inj (String.app coding_header)). Qed.

Lemma value_of_lookup (r : result (gmap string pyval * gmap string file))
    (key : string) :
  value_of (executed ← r; v ← getitem executed.1 key; Return (v, executed.2))
    = (ns ← value_of r; getitem ns key).
Proof.
  destruct r as [[ns fs]| |]; [|done..]. simpl.
  by destruct (getitem ns key).
Qed.

(** What [get_version] returns when the scan has selected [line]. *)
Lemma get_version_selected (E : interpreter) (fs : gmap string file)
    (chars line : string) (pre post : list string) :
  fs !! "thermod-monitor-mqtt" = Some (TextFile chars) ->
  readlines (universal_newlines chars) = pre ++ line :: post ->
  Forall (fun l => String.prefix marker l = false) pre ->
  String.prefix marker line = true ->
  get_version E fs =
    (executed ← E (format line) ∅ fs;
     v ← getitem executed.1 "__version__";
     Return (v, executed.2)).
Proof.
  intros Hfs Hlines Hpre Hline.
  rewrite (get_version_unfold _ _ _ Hfs), Hlines. by rewrite scan_first.
Qed.

(** C7, as the code has it: [get_version] depends on the file through its
    first line that starts with [__version__] and through what executing
    that line does: two files whose first such line is the same, and on
    which the execution of that line ends the same way, give the same
    result, whatever their other lines are, later lines with the marker
    included. *)
Theorem get_version_first_marker_line
    (E : interpreter) (fs fs' : gmap string file) (chars chars' line : string)
    (pre post pre' post' : list string) :
  fs !! "thermod-monitor-mqtt" = Some (TextFile chars) ->
  fs' !! "thermod-monitor-mqtt" = Some (TextFile chars') ->
  readlines (universal_newlines chars) = pre ++ line :: post ->
  readlines (universal_newlines chars') = pre' ++ line :: post' ->
  Forall (fun l => String.prefix marker l = false) pre ->
  Forall (fun l => String.prefix marker l = false) pre' ->
  String.prefix marker line = true ->
  value_of (E (format line) ∅ fs) = value_of (E (format line) ∅ fs') ->
  value_of (get_version E fs) = value_of (get_version E fs') /\
  value_of (get_version E fs) =
    (main_ns ← value_of (E (format line) ∅ fs);
     getitem main_ns "__version__").
Proof.
  intros Hfs Hfs' Hl Hl' Hpre Hpre' Hline Hsame.
  rewrite (get_version_selected E fs chars line pre post) by done.
  rewrite (get_version_selected E fs' chars' line pre' post') by done.
  rewrite !value_of_lookup. by rewrite Hsame.
Qed.

Lemma get_version_first_marker_line_witness :
  value_of (get_version python fs_with_version) =
    value_of (get_version python
      {[ "thermod-monitor-mqtt" := TextFile script_with_two_versions ]}) /\
  value_of (get_version python fs_with_version) =
    (main_ns ← value_of (python (format "__version__ = '1.2.3'
") ∅ fs_with_version); getitem main_ns "__version__").
Proof.
  apply (get_version_first_marker_line python
           fs_with_version
           {[ "thermod-monitor-mqtt" := TextFile script_with_two_versions ]}
           script_with_version script_with_two_versions
           "__version__ = '1.2.3'
"
           ["#!/usr/bin/env python3
"]
           ["__date__ = '2020-10-21'
"]
           ["# a different script
"; "# with other lines
"]
           ["__version__ = '9.9.9'
"]);
    try reflexivity; repeat constructor.
Defined.

(** C7, as it is stated, fails: the two files [script_reading_itself]
    with the last lines [# build 1] and [# build 2] have the same first
    line starting with the marker, a line that reads the script back, and
    [get_version] returns the whole text of each: two different values. *)
Lemma get_version_first_marker_line_counterexample :
  readlines (universal_newlines (script_reading_itself "# build 1")) =
    ["__version__ = open('thermod-monitor-mqtt').read()
"; "# build 1"] /\
  readlines (universal_newlines (script_reading_itself "# build 2")) =
    ["__version__ = open('thermod-monitor-mqtt').read()
"; "# build 2"] /\
  value_of (get_version python
    {[ "thermod-monitor-mqtt" := TextFile (script_reading_itself "# build 1") ]})
    = Return (PyStr (script_reading_itself "# build 1")) /\
  value_of (get_version python
    {[ "thermod-monitor-mqtt" := TextFile (script_reading_itself "# build 2") ]})
    = Return (PyStr (script_reading_itself "# build 2")) /\
  value_of (get_version python
    {[ "thermod-monitor-mqtt" := TextFile (script_reading_itself "# build 1") ]})
  <> value_of (get_version python
    {[ "thermod-monitor-mqtt" := TextFile (script_reading_itself "# build 2") ]}).
Proof. repeat split; try reflexivity. by vm_compute. Qed.

(** C8: a line in which [__version__] does not occur at index 0 (an
    indented assignment, say) is never the line the scan selects: the scan
    runs as if the line were not there, and its result is never that line.
    What the scan selects is always a line that begins with the marker. *)
Theorem scan_selects_marker_at_start_only
    (line : string) (pre post : list string) (v : option string) :
  find line marker <> 0 ->
  scan (pre ++ line :: post) v = scan (pre ++ post) v /\
  (forall script, scan script None <> Some (format line)) /\
  (forall script src, scan script None = Some src ->
     exists tail, (marker +:+ tail) ∈ script /\
                  src = format (marker +:+ tail)).
Proof.
  intros Hline. split; [by apply scan_drop|]. split.
  - intros script Hs.
    destruct (scan_some _ _ _ Hs) as [?|(l & _ & Hl & Heq)]; [done|].
    apply (inj Some), format_inj in Heq as <-. by rewrite Hl in Hline.
  - intros script src Hs.
    destruct (scan_some _ _ _ Hs) as [?|(l & Hin & Hl & Heq)]; [done|].
    apply (inj Some) in Heq as ->.
    apply find_zero, prefix_inv in Hl as [tail ->]. by exists tail.
Qed.

Lemma scan_selects_marker_at_start_only_witness :
  find "  __version__ = '0.0.1'
" marker = 2 /\
  scan (readlines script_without_version) None = None.
Proof.
  split; [reflexivity|].
  transitivity (scan (["#!/usr/bin/env python3
"; "import sys
"] ++ ["print(sys.argv)
"]) None); [|reflexivity].
  apply (scan_selects_marker_at_start_only "  __version__ = '0.0.1'
"
           ["#!/usr/bin/env python3
"; "import sys
"] ["print(sys.argv)
"] None).
  by vm_compute.
Defined.

(** ** The tokenizer on a version line *)

Lemma string_forallb_app (p : ascii -> bool) (s t : string) :
  string_forallb p (s +:+ t) = string_forallb p s && string_forallb p t.
Proof.
  induction s as [|c s IH]; [done|].
  rewrite str_app_cons. simpl. by rewrite IH, andb_assoc.
Qed.

Lemma string_forallb_impl (p p' : ascii -> bool) (s : string) :
  (forall c, p c = true -> p' c = true) ->
  string_forallb p s = true -> string_forallb p' s = true.
Proof.
  intros Hp. induction s as [|c s IH]; [done|]. simpl.
  intros [? ?]%andb_true_iff. apply andb_true_iff. auto.
Qed.

Lemma is_blank_inv (c : ascii) : is_blank c = true -> c = SPACE \/ c = TAB.
Proof.
  unfold is_blank. intros [H|H]%orb_true_iff; apply Ascii.eqb_eq in H; auto.
Qed.

Lemma is_quote_inv (c : ascii) : is_quote c = true -> c = SQUOTE \/ c = DQUOTE.
Proof.
  unfold is_quote. intros [H|H]%orb_true_iff; apply Ascii.eqb_eq in H; auto.
Qed.

(** Blanks between tokens are skipped. *)
Lemma lex_blanks (ws s : string) :
  string_forallb is_blank ws = true ->
  lex Between (ws +:+ s) = lex Between s.
Proof.
  induction ws as [|c ws IH]; [done|]. cbn [string_forallb].
  intros [Hc Hws]%andb_true_iff. rewrite str_app_cons. cbn [lex].
  rewrite Hc. auto.
Qed.

Lemma literal_char_inv (q c : ascii) :
  literal_char q c = true ->
  is_source_char c = true /\ Ascii.eqb c q = false /\
  Ascii.eqb c BACKSLASH = false /\ Ascii.eqb c LF = false.
Proof.
  unfold literal_char. rewrite !andb_true_iff, !negb_true_iff. tauto.
Qed.

Lemma lex_string_body (q : ascii) (acc body rest : string) :
  string_forallb (literal_char q) body = true ->
  lex (InString q acc) (body +:+ String q rest) =
    emit (TStr (acc +:+ body)) (lex Between rest).
Proof.
  revert acc. induction body as [|c body IH]; intros acc;
    cbn [string_forallb].
  - intros _. rewrite str_app_nil_l, str_app_nil_r. cbn [lex].
    by rewrite Ascii.eqb_refl.
  - intros [(_ & Hq & Hb & _)%literal_char_inv Hbody]%andb_true_iff.
    rewrite str_app_cons. cbn [lex]. rewrite Hq, Hb, IH by done.
    unfold snoc. by rewrite str_app_assoc.
Qed.

Lemma lex_equals (rest : string) :
  starts_with EQUALS rest = false ->
  lex Between (String EQUALS rest) = emit TEq (lex Between rest).
Proof.
  intros H. cbn [lex]. change (is_blank EQUALS) with false.
  change (Ascii.eqb EQUALS HASH) with false.
  change (Ascii.eqb EQUALS SEMI) with false.
  change (Ascii.eqb EQUALS EQUALS) with true. cbv iota.
  destruct rest as [|c rest]; [done|]. cbn [starts_with] in H. by rewrite H.
Qed.

Lemma lex_name_equals (n ws rest : string) :
  string_forallb is_blank ws = true ->
  starts_with EQUALS rest = false ->
  lex (InName n) (ws +:+ String EQUALS rest) =
    emit_name n (emit TEq (lex Between rest)).
Proof.
  intros Hws Hrest. destruct ws as [|c ws].
  - rewrite str_app_nil_l. cbn [lex].
    change (is_name_char EQUALS) with false.
    change (is_blank EQUALS) with false.
    change (Ascii.eqb EQUALS HASH) with false.
    change (Ascii.eqb EQUALS SEMI) with false.
    change (Ascii.eqb EQUALS EQUALS) with true. cbv iota.
    destruct rest as [|c rest]; [done|]. cbn [starts_with] in Hrest.
    by rewrite Hrest.
  - cbn [string_forallb] in Hws. apply andb_true_iff in Hws as [Hc Hws].
    rewrite str_app_cons. cbn [lex]. rewrite Hc.
    assert (is_name_char c = false) as ->
      by (by destruct (is_blank_inv _ Hc) as [-> | ->]).
    by rewrite lex_blanks, lex_equals.
Qed.

Lemma lex_marker (s : string) :
  lex Between (marker +:+ s) = lex (InName marker) s.
Proof. reflexivity. Qed.

(** An opening quote that does not open a long string. *)
Lemma lex_open_quote (q : ascii) (s : string) :
  is_quote q = true ->
  (forall s', s <> String q (String q s')) ->
  lex Between (String q s) = lex (InString q EmptyString) s.
Proof.
  intros Hq Hs.
  assert (lex Between (String q s) =
    match s with
    | String c1 (String c2 _) =>
        if Ascii.eqb c1 q && Ascii.eqb c2 q then LexUnmodelled
        else lex (InString q EmptyString) s
    | _ => lex (InString q EmptyString) s
    end) as ->.
  { destruct (is_quote_inv _ Hq) as [-> | ->]; reflexivity. }
  destruct s as [|c1 [|c2 s']]; try done.
  destruct (Ascii.eqb c1 q && Ascii.eqb c2 q) eqn:E; [|done].
  apply andb_true_iff in E as [->%Ascii.eqb_eq ->%Ascii.eqb_eq].
  by destruct (Hs s').
Qed.

Lemma lex_tail (ws3 comment : string) :
  string_forallb is_blank ws3 = true ->
  is_comment comment = true ->
  lex Between (ws3 +:+ comment) = Tokens [].
Proof.
  intros Hws3 Hcomment.
  rewrite lex_blanks by done. destruct comment as [|c rest]; [done|].
  cbn [is_comment] in Hcomment.
  apply andb_true_iff in Hcomment as [->%Ascii.eqb_eq _]. done.
Qed.

Lemma tail_not_quote (q : ascii) (ws3 comment : string) :
  is_quote q = true ->
  string_forallb is_blank ws3 = true ->
  is_comment comment = true ->
  starts_with q (ws3 +:+ comment) = false.
Proof.
  intros Hq Hws3 Hcomment. destruct ws3 as [|c ws].
  - rewrite str_app_nil_l. destruct comment as [|c rest]; [done|].
    cbn [is_comment] in Hcomment.
    apply andb_true_iff in Hcomment as [->%Ascii.eqb_eq _].
    by destruct (is_quote_inv _ Hq) as [-> | ->].
  - cbn [string_forallb] in Hws3. apply andb_true_iff in Hws3 as [Hc _].
    rewrite str_app_cons. cbn [starts_with].
    by destruct (is_quote_inv _ Hq) as [-> | ->],
                (is_blank_inv _ Hc) as [-> | ->].
Qed.

Lemma literal_not_long (q : ascii) (ws3 lit comment s' : string) :
  is_quote q = true ->
  string_forallb is_blank ws3 = true ->
  string_forallb (literal_char q) lit = true ->
  is_comment comment = true ->
  lit +:+ String q (ws3 +:+ comment) <> String q (String q s').
Proof.
  intros Hq Hws3 Hlit Hcomment. destruct lit as [|c body].
  - rewrite str_app_nil_l. intros [= H].
    pose proof (tail_not_quote q ws3 comment Hq Hws3 Hcomment) as Ht.
    rewrite H in Ht. cbn [starts_with] in Ht.
    by rewrite Ascii.eqb_refl in Ht.
  - rewrite str_app_cons. intros [= -> _].
    cbn [string_forallb] in Hlit. apply andb_true_iff in Hlit as [Hc _].
    apply literal_char_inv in Hc as (_ & Hc & _).
    by rewrite Ascii.eqb_refl in Hc.
Qed.

Lemma rhs_not_equals (q : ascii) (ws2 rest : string) :
  is_quote q = true ->
  string_forallb is_blank ws2 = true ->
  starts_with EQUALS (ws2 +:+ String q rest) = false.
Proof.
  intros Hq Hws2. destruct ws2 as [|c ws].
  - rewrite str_app_nil_l. cbn [starts_with].
    by destruct (is_quote_inv _ Hq) as [-> | ->].
  - cbn [string_forallb] in Hws2. apply andb_true_iff in Hws2 as [Hc _].
    rewrite str_app_cons. cbn [starts_with].
    by destruct (is_blank_inv _ Hc) as [-> | ->].
Qed.

Lemma lex_core (q : ascii) (ws1 ws2 ws3 lit comment : string) :
  is_quote q = true ->
  string_forallb is_blank ws1 = true ->
  string_forallb is_blank ws2 = true ->
  string_forallb is_blank ws3 = true ->
  string_forallb (literal_char q) lit = true ->
  is_comment comment = true ->
  lex Between (core q ws1 ws2 ws3 lit comment) =
    Tokens [TName marker; TEq; TStr lit].
Proof.
  intros Hq Hws1 Hws2 Hws3 Hlit Hcomment.
  unfold core. rewrite lex_marker.
  rewrite lex_name_equals by (done || by apply rhs_not_equals).
  rewrite lex_blanks by done.
  rewrite lex_open_quote by (done || intros s'; by apply literal_not_long).
  rewrite lex_string_body by done. by rewrite lex_tail.
Qed.

Lemma compile_line_core (q : ascii) (ws1 ws2 ws3 lit comment : string) :
  is_quote q = true ->
  string_forallb is_blank ws1 = true ->
  string_forallb is_blank ws2 = true ->
  string_forallb is_blank ws3 = true ->
  string_forallb (literal_char q) lit = true ->
  is_comment comment = true ->
  compile_line (core q ws1 ws2 ws3 lit comment) =
    Return [SAssign [marker] (EStr lit)].
Proof. intros. unfold compile_line. by rewrite lex_core. Qed.

Lemma core_chars (q : ascii) (ws1 ws2 ws3 lit comment : string) :
  is_quote q = true ->
  string_forallb is_blank ws1 = true ->
  string_forallb is_blank ws2 = true ->
  string_forallb is_blank ws3 = true ->
  string_forallb (literal_char q) lit = true ->
  is_comment comment = true ->
  string_forallb comment_char (core q ws1 ws2 ws3 lit comment) = true.
Proof.
  intros Hq Hws1 Hws2 Hws3 Hlit Hcomment.
  assert (forall s, string_forallb is_blank s = true ->
                    string_forallb comment_char s = true) as Hblank.
  { intros s. apply string_forallb_impl. intros c Hc.
    by destruct (is_blank_inv _ Hc) as [-> | ->]. }
  assert (comment_char q = true) as Hqc
    by (by destruct (is_quote_inv _ Hq) as [-> | ->]).
  assert (string_forallb comment_char lit = true) as Hl.
  { revert Hlit. apply string_forallb_impl. intros c Hc.
    apply literal_char_inv in Hc as (Hs & _ & _ & Hlf).
    unfold comment_char. by rewrite Hs, Hlf. }
  assert (string_forallb comment_char comment = true) as Hc.
  { destruct comment as [|c rest]; [done|]. cbn [is_comment] in Hcomment.
    apply andb_true_iff in Hcomment as [->%Ascii.eqb_eq Hrest].
    cbn [string_forallb]. by rewrite Hrest. }
  unfold core. rewrite !string_forallb_app. cbn [string_forallb].
  rewrite !string_forallb_app. cbn [string_forallb].
  rewrite !string_forallb_app. cbn [string_forallb].
  rewrite !string_forallb_app.
  rewrite Hqc, Hl, Hc, (Hblank ws1), (Hblank ws2), (Hblank ws3) by done.
  reflexivity.
Qed.

(** ** Compiling and running the selected line *)

Lemma comment_char_inv (c : ascii) :
  comment_char c = true -> is_source_char c = true /\ Ascii.eqb c LF = false.
Proof. unfold comment_char. rewrite andb_true_iff, negb_true_iff. tauto. Qed.

Lemma split_lines_one (s : string) :
  string_forallb comment_char s = true -> split_lines s = [s].
Proof.
  induction s as [|c s IH]; [done|]. cbn [string_forallb split_lines].
  intros [(_ & ->)%comment_char_inv Hs]%andb_true_iff. by rewrite IH.
Qed.

Lemma split_lines_lf (s t : string) :
  string_forallb comment_char s = true ->
  split_lines (s +:+ String LF t) = s :: split_lines t.
Proof.
  induction s as [|c s IH]; [done|]. cbn [string_forallb].
  intros [(_ & Hc)%comment_char_inv Hs]%andb_true_iff.
  rewrite str_app_cons. cbn [split_lines]. by rewrite Hc, IH.
Qed.

Lemma compile_lines_cons (line : string) (rest : list string)
    (stmts more : list stmt) :
  compile_line line = Return stmts ->
  compile_lines rest = Return more ->
  compile_lines (line :: rest) = Return (stmts ++ more).
Proof. intros H1 H2. cbn [compile_lines]. by rewrite H1, H2. Qed.

Lemma compile_version_line
    (q : ascii) (ws1 ws2 ws3 lit comment eol : string) :
  is_quote q = true ->
  string_forallb is_blank ws1 = true ->
  string_forallb is_blank ws2 = true ->
  string_forallb is_blank ws3 = true ->
  string_forallb (literal_char q) lit = true ->
  is_comment comment = true ->
  eol = EmptyString \/ eol = String LF EmptyString ->
  compile (format (core q ws1 ws2 ws3 lit comment +:+ eol)) =
    Return [SAssign [marker] (EStr lit)].
Proof.
  intros Hq Hws1 Hws2 Hws3 Hlit Hcomment Heol.
  pose proof (core_chars q ws1 ws2 ws3 lit comment
                Hq Hws1 Hws2 Hws3 Hlit Hcomment) as Hchars.
  pose proof (compile_line_core q ws1 ws2 ws3 lit comment
                Hq Hws1 Hws2 Hws3 Hlit Hcomment) as Hline.
  set (c := core q ws1 ws2 ws3 lit comment) in *.
  assert (string_forallb is_source_char c = true) as Hsrc.
  { revert Hchars. apply string_forallb_impl.
    by intros ? [? _]%comment_char_inv. }
  unfold compile, format.
  change (coding_header +:+ c +:+ eol)
    with ("# -*- coding: utf-8 -*-" +:+ String LF (c +:+ eol)).
  assert (string_forallb is_source_char
            ("# -*- coding: utf-8 -*-" +:+ String LF (c +:+ eol)) = true) as ->.
  { rewrite string_forallb_app. cbn [string_forallb].
    rewrite string_forallb_app, Hsrc. by destruct Heol as [-> | ->]. }
  rewrite split_lines_lf by done.
  apply (compile_lines_cons _ _ [] _); [reflexivity|].
  destruct Heol as [-> | ->].
  - rewrite str_app_nil_r, split_lines_one by done.
    rewrite <- (app_nil_r [SAssign _ _]). by apply compile_lines_cons.
  - rewrite split_lines_lf by done.
    rewrite <- (app_nil_r [SAssign _ _]). by apply compile_lines_cons.
Qed.

Lemma python_version_assignment (line lit : string) (fs : gmap string file) :
  version_assignment line lit ->
  String.prefix marker line = true /\
  compile (format line) = Return [SAssign [marker] (EStr lit)] /\
  python (format line) ∅ fs =
    Return (<[marker := PyStr lit]> (with_builtins ∅), fs).
Proof.
  intros [q ws1 ws2 ws3 l comment eol Hq H1 H2 H3 Hl Hc Heol].
  split; [unfold core; by rewrite str_app_assoc, prefix_app|].
  pose proof (compile_version_line q ws1 ws2 ws3 l comment eol
                Hq H1 H2 H3 Hl Hc Heol) as Hcomp.
  split; [exact Hcomp|].
  unfold python. rewrite Hcomp. reflexivity.
Qed.


Lemma version_assignment_example :
  version_assignment "__version__ = '1.2.3'
" "1.2.3".
Proof.
  by apply (VersionAssignment "'" " " " " EmptyString "1.2.3" EmptyString
              (String LF EmptyString)); [..|right].
Qed.



(** ** Lines that do not bind [__version__] *)




(** C9, as the code has it: when the first line that starts with
    [__version__] is valid Python whose execution in the fresh namespace
    completes and leaves [__version__] unbound, [get_version] raises
    [KeyError] for [__version__], and so does the module body: [setup] is
    not called with a wrong value.  This holds whatever the line is and
    does otherwise. *)
Theorem get_version_unbound
    (E : interpreter) (fs fs' : gmap string file) (chars line : string)
    (pre post : list string) (ns : gmap string pyval) :
  fs !! "thermod-monitor-mqtt" = Some (TextFile chars) ->
  readlines (universal_newlines chars) = pre ++ line :: post ->
  Forall (fun l => String.prefix marker l = false) pre ->
  String.prefix marker line = true ->
  E (format line) ∅ fs = Return (ns, fs') ->
  ns !! "__version__" = None ->
  get_version E fs = Raise (KeyError "__version__") /\
  setup_py E fs = Raise (KeyError "__version__") /\
  (forall kw, setup_py E fs <> Return kw).
Proof.
  intros Hfs Hlines Hpre Hline Hexec Hns.
  assert (get_version E fs = Raise (KeyError "__version__")) as Hv.
  { rewrite (get_version_selected E fs chars line pre post) by done.
    rewrite Hexec. simpl. unfold getitem. simpl. by rewrite Hns. }
  split; [done|]. rewrite (setup_py_raise _ _ _ Hv). by split.
Qed.

Lemma get_version_unbound_witness :
  get_version python
    {[ "thermod-monitor-mqtt" := TextFile script_with_version_extra ]}
    = Raise (KeyError "__version__") /\
  setup_py python
    {[ "thermod-monitor-mqtt" := TextFile script_with_version_extra ]}
    = Raise (KeyError "__version__") /\
  (forall kw,
     setup_py python
       {[ "thermod-monitor-mqtt" := TextFile script_with_version_extra ]}
     <> Return kw).
Proof.
  apply (get_version_unbound python
           {[ "thermod-monitor-mqtt" := TextFile script_with_version_extra ]}
           {[ "thermod-monitor-mqtt" := TextFile script_with_version_extra ]}
           script_with_version_extra
           "__version__extra = '1.0'
"
           ["#!/usr/bin/env python3
"] []
           (<["__version__extra" := PyStr "1.0"]> (with_builtins ∅))).
  - reflexivity.
  - reflexivity.
  - repeat constructor.
  - reflexivity.
  - reflexivity.
  - by vm_compute.
Defined.

(** C9, as it is stated, fails: the line [__version__tuple = __version__]
    is valid Python and assigns to [__version__tuple] only, yet
    [get_version] does not end in a [KeyError]: the execution of the line
    itself raises [NameError], since [__version__] is not defined in the
    fresh namespace. *)
Lemma get_version_unbound_counterexample :
  readlines (universal_newlines script_with_version_alias) =
    ["#!/usr/bin/env python3
"; "__version__tuple = __version__
"] /\
  String.prefix marker "__version__tuple = __version__
" = true /\
  compile (format "__version__tuple = __version__
") = Return [SAssign ["__version__tuple"] (EName "__version__")] /\
  ("__version__" ∉
     assigned [SAssign ["__version__tuple"] (EName "__version__")]) /\
  get_version python
    {[ "thermod-monitor-mqtt" := TextFile script_with_version_alias ]}
    = Raise (NameError "__version__") /\
  get_version python
    {[ "thermod-monitor-mqtt" := TextFile script_with_version_alias ]}
    <> Raise (KeyError "__version__").
Proof.
  repeat split; try reflexivity; [|discriminate].
  vm_compute. by intros ?%list_elem_of_singleton.
Qed.



(** * Further properties of [setup.py] *)

(** ** Missing files *)

(** X1: when the file [thermod-monitor-mqtt] does not exist, [get_version]
    raises [FileNotFoundError] for it, and so does the module body, whether
    [README.md] exists or not: the version is evaluated first. *)
Theorem missing_script_raises (E : interpreter) (fs : gmap string file) :
  fs !! "thermod-monitor-mqtt" = None ->
  get_version E fs = Raise (FileNotFoundError "thermod-monitor-mqtt") /\
  setup_py E fs = Raise (FileNotFoundError "thermod-monitor-mqtt").
Proof.
  intros Hfs.
  assert (get_version E fs = Raise (FileNotFoundError "thermod-monitor-mqtt"))
    as Hv by (unfold get_version, open; by rewrite Hfs).
  split; [done|]. by apply setup_py_raise.
Qed.

Lemma missing_script_raises_witness :
  get_version python fs_readme_only =
    Raise (FileNotFoundError "thermod-monitor-mqtt") /\
  setup_py python fs_readme_only =
    Raise (FileNotFoundError "thermod-monitor-mqtt").
Proof. apply (missing_script_raises python fs_readme_only). reflexivity. Defined.

(** X2: when [get_version] returns but [README.md] does not exist,
    [get_readme] raises [FileNotFoundError] for [README.md] and the module
    body raises it too: [setup] is not called. *)
Theorem missing_readme_raises
    (E : interpreter) (fs fs' : gmap string file) (v : pyval) :
  get_version E fs = Return (v, fs') ->
  fs' !! "README.md" = None ->
  get_readme fs' = Raise (FileNotFoundError "README.md") /\
  setup_py E fs = Raise (FileNotFoundError "README.md") /\
  (forall kw, setup_py E fs <> Return kw).
Proof.
  intros Hv Hfs.
  assert (get_readme fs' = Raise (FileNotFoundError "README.md")) as Hr
    by (unfold get_readme, open; by rewrite Hfs).
  unfold setup_py. rewrite Hv. simpl. rewrite Hr. by repeat split.
Qed.

Lemma missing_readme_raises_witness :
  get_readme fs_script_only = Raise (FileNotFoundError "README.md") /\
  setup_py python fs_script_only = Raise (FileNotFoundError "README.md") /\
  (forall kw, setup_py python fs_script_only <> Return kw).
Proof.
  apply (missing_readme_raises python fs_script_only fs_script_only
           (PyStr "1.2.3")); reflexivity.
Defined.

(** X13: when [get_version] returns but [README.md] is there and cannot
    be read as text, the module body fails with the error of the read and
    [setup] is not called: [UnicodeDecodeError] when the bytes of the file
    do not decode, the refusal of [open] when the file cannot be opened. *)
Theorem unreadable_readme_raises
    (E : interpreter) (fs fs' : gmap string file) (v : pyval) :
  get_version E fs = Return (v, fs') ->
  (fs' !! "README.md" = Some Undecodable ->
     get_readme fs' = Raise UnicodeDecodeError /\
     setup_py E fs = Raise UnicodeDecodeError) /\
  (forall refusal, fs' !! "README.md" = Some (Unopenable refusal) ->
     get_readme fs' = Raise refusal /\
     setup_py E fs = Raise refusal).
Proof.
  intros Hv. split.
  - intros Hfs.
    assert (get_readme fs' = Raise UnicodeDecodeError) as Hr
      by (unfold get_readme, open; by rewrite Hfs).
    unfold setup_py. rewrite Hv. simpl. by rewrite Hr.
  - intros refusal Hfs.
    assert (get_readme fs' = Raise refusal) as Hr
      by (unfold get_readme, open; by rewrite Hfs).
    unfold setup_py. rewrite Hv. simpl. by rewrite Hr.
Qed.

Lemma unreadable_readme_raises_witness :
  get_readme fs_readme_undecodable = Raise UnicodeDecodeError /\
  setup_py python fs_readme_undecodable = Raise UnicodeDecodeError.
Proof.
  destruct (unreadable_readme_raises python fs_readme_undecodable
              fs_readme_undecodable (PyStr "1.2.3") eq_refl) as [Hu _].
  apply Hu. reflexivity.
Defined.

(** X3: [setup] is called exactly when [get_version] returns a value and
    [README.md] is then a file that can be opened and decoded; it is
    called with that value as [version] and with what reading the file in
    text mode gives as [long_description]. *)
Theorem setup_called_iff (E : interpreter) (fs : gmap string file) :
  ((exists kw, setup_py E fs = Return kw) <->
   (exists v fs' chars,
      get_version E fs = Return (v, fs') /\
      fs' !! "README.md" = Some (TextFile chars))) /\
  (forall kw, setup_py E fs = Return kw ->
     exists fs' chars,
       get_version E fs = Return (version kw, fs') /\
       fs' !! "README.md" = Some (TextFile chars) /\
       long_description kw = universal_newlines chars).
Proof.
  assert (forall kw, setup_py E fs = Return kw ->
     exists fs' chars,
       get_version E fs = Return (version kw, fs') /\
       fs' !! "README.md" = Some (TextFile chars) /\
       long_description kw = universal_newlines chars) as Hinv.
  { intros kw [(fs' & Hv & Hr) _]%setup_py_inv.
    apply get_readme_inv in Hr as (chars & Hfs & Hl). by exists fs', chars. }
  split; [|done]. split.
  - intros [kw (fs' & chars & Hv & Hr & _)%Hinv]. eauto.
  - intros (v & fs' & chars & Hv & Hr).
    destruct (setup_py_return E fs fs' v chars Hv Hr) as (kw & ? & _). eauto.
Qed.

(** X4: from the files to the call of [setup]: when the first line of the
    script that starts with [__version__] assigns to it a short string
    literal of printable ASCII text without a backslash, and [README.md]
    is a file that decodes, [setup] is called with that text as [version],
    with what reading [README.md] in text mode gives as
    [long_description], and with the package name. *)
Theorem setup_receives_version_and_readme
    (fs : gmap string file) (chars line lit readme : string)
    (pre post : list string) :
  fs !! "thermod-monitor-mqtt" = Some (TextFile chars) ->
  readlines (universal_newlines chars) = pre ++ line :: post ->
  Forall (fun l => String.prefix marker l = false) pre ->
  version_assignment line lit ->
  fs !! "README.md" = Some (TextFile readme) ->
  exists kw, setup_py python fs = Return kw /\
    version kw = PyStr lit /\
    long_description kw = universal_newlines readme /\
    name kw = "thermod-monitor-mqtt".
Proof.
  intros Hfs Hlines Hpre Hva Hr.
  destruct (python_version_assignment line lit fs Hva) as (Hline & _ & Hexec).
  assert (get_version python fs = Return (PyStr lit, fs)) as Hv.
  { rewrite (get_version_selected python fs chars line pre post) by done.
    rewrite Hexec. reflexivity. }
  exact (setup_py_return python fs fs (PyStr lit) readme Hv Hr).
Qed.

Lemma setup_receives_version_and_readme_witness :
  exists kw, setup_py python fs_with_version = Return kw /\
    version kw = PyStr "1.2.3" /\
    long_description kw = universal_newlines readme_text /\
    name kw = "thermod-monitor-mqtt".
Proof.
  apply (setup_receives_version_and_readme fs_with_version script_with_version
           "__version__ = '1.2.3'
" "1.2.3" readme_text
           ["#!/usr/bin/env python3
"]
           ["__date__ = '2020-10-21'
"]).
  - reflexivity.
  - reflexivity.
  - repeat constructor.
  - exact version_assignment_example.
  - reflexivity.
Defined.

(** ** The scan and its test *)

(** X5: what the loop leaves in [version_str]: [None] exactly when no line
    starts with [__version__]; otherwise the header followed by the first
    line that does, whatever comes after that line. *)
Theorem scan_characterisation (script : list string) :
  (scan script None = None <->
   Forall (fun l => String.prefix marker l = false) script) /\
  (forall src, scan script None = Some src <->
     exists pre line post,
       script = pre ++ line :: post /\
       Forall (fun l => String.prefix marker l = false) pre /\
       String.prefix marker line = true /\
       src = format line).
Proof.
  assert (forall src, scan script None = Some src ->
     exists pre line post,
       script = pre ++ line :: post /\
       Forall (fun l => String.prefix marker l = false) pre /\
       String.prefix marker line = true /\
       src = format line) as Hsome.
  { induction script as [|l script IH]; intros src; [done|].
    cbn [scan]. destruct (find l marker =? 0) eqn:E.
    - intros [= <-]. exists [], l, script.
      apply Z.eqb_eq, find_zero in E. by repeat split.
    - intros (pre & line & post & -> & Hpre & Hline & ->)%IH.
      exists (l :: pre), line, post. repeat split; [|done].
      constructor; [|done]. by apply find_nonzero, Z.eqb_neq. }
  split; [split|].
  - clear Hsome. induction script as [|l script IH]; [by constructor|].
    cbn [scan]. destruct (find l marker =? 0) eqn:E; [done|].
    intros Hnone. constructor; [|by apply IH].
    by apply find_nonzero, Z.eqb_neq.
  - apply scan_none.
  - intros src. split; [apply Hsome|].
    intros (pre & line & post & -> & Hpre & Hline & ->). by apply scan_first.
Qed.

(** X6: the test of the loop, [line.find('__version__') == 0], is
    [line.startswith('__version__')]: [find] gives 0 exactly on the texts
    that begin with the text searched for. *)
Theorem find_zero_iff_starts_with (s sub : string) :
  find s sub = 0 <-> exists tail, s = sub +:+ tail.
Proof.
  rewrite find_zero. split; [apply prefix_inv|].
  intros [tail ->]. apply prefix_app.
Qed.

Lemma find_from_occurrence (s sub : string) (i : Z) :
  (find_from s sub i = -1 /\ forall a b, s <> a +:+ sub +:+ b) \/
  (exists a b, s = a +:+ sub +:+ b /\
     find_from s sub i = i + Z.of_nat (String.length a) /\
     forall a' b', s = a' +:+ sub +:+ b' ->
       (String.length a <= String.length a')%nat).
Proof.
  revert i. induction s as [|c s IH]; intros i; cbn [find_from].
  - destruct (String.prefix sub EmptyString) eqn:E.
    + right. apply prefix_inv in E as [t Ht]. exists EmptyString, t.
      rewrite str_app_nil_l. repeat split; [done|simpl; lia|simpl; lia].
    + left. split; [done|]. intros [|d a] b Hab; [|done].
      rewrite str_app_nil_l in Hab. destruct sub; [done|done].
  - destruct (String.prefix sub (String c s)) eqn:E.
    + right. apply prefix_inv in E as [t Ht]. exists EmptyString, t.
      rewrite str_app_nil_l. repeat split; [done|simpl; lia|simpl; lia].
    + assert (forall b, String c s <> sub +:+ b) as Hne.
      { intros b Hb. by rewrite Hb, prefix_app in E. }
      destruct (IH (i + 1)) as [[Hf Hno]|(a & b & Hs & Hf & Hmin)].
      * left. split; [done|]. intros [|d a] b Hab.
        -- by apply (Hne b).
        -- rewrite str_app_cons in Hab. injection Hab as _ Hab.
           by apply (Hno a b).
      * right. exists (String c a), b. split; [by rewrite str_app_cons, Hs|].
        split; [rewrite Hf; cbn [String.length]; lia|].
        intros [|d a'] b' Hab.
        -- by destruct (Hne b').
        -- rewrite str_app_cons in Hab. injection Hab as _ Hab.
           cbn [String.length]. apply le_n_S. by apply (Hmin a' b').
Qed.

(** X7: [find] is [str.find]: it gives -1 exactly when the text searched
    for occurs nowhere, and otherwise the index of its first occurrence.
    So a line in which [__version__] occurs later than index 0, or not at
    all, never passes the test of the loop. *)
Theorem find_first_occurrence (s sub : string) :
  (find s sub = -1 /\ forall a b, s <> a +:+ sub +:+ b) \/
  (exists a b, s = a +:+ sub +:+ b /\
     find s sub = Z.of_nat (String.length a) /\
     forall a' b', s = a' +:+ sub +:+ b' ->
       (String.length a <= String.length a')%nat).
Proof.
  unfold find.
  destruct (find_from_occurrence s sub 0) as [?|(a & b & ? & Hf & ?)];
    [by left|right].
  exists a, b. by rewrite Hf.
Qed.

(** ** The lines of the script *)

Lemma readlines_terminated (text l l' : string) (pre post : list string) :
  readlines text = pre ++ l :: l' :: post ->
  exists body, l = body +:+ String LF EmptyString.
Proof.
  revert pre l. induction text as [|c rest IH]; intros pre l.
  - by destruct pre.
  - cbn [readlines]. destruct (Ascii.eqb c LF) eqn:E.
    + apply Ascii.eqb_eq in E as ->. destruct pre as [|p pre].
      * intros [= <- _]. by exists EmptyString.
      * intros [= _ H]. by apply (IH pre).
    + destruct (readlines rest) as [|l0 ls].
      * by destruct pre as [|? [|? ?]].
      * destruct pre as [|p pre].
        -- intros [= <- ->]. destruct (IH [] l0 eq_refl) as [body ->].
           by exists (String c body).
        -- intros [= _ ->]. by apply (IH (l0 :: pre)).
Qed.

(** X8: iterating over the script loses nothing and cuts it at line feeds
    only: the lines put back together are the text of the file; a line is
    never empty and has no line feed except as its last character; every
    line but the last ends with a line feed; and the empty file, and only
    it, has no line at all. *)
Theorem readlines_partition (text : string) :
  concat_lines (readlines text) = text /\
  Forall (fun l => exists body,
            string_forallb not_lf body = true /\
            (l = body +:+ String LF EmptyString \/
             l = body /\ body <> EmptyString))
         (readlines text) /\
  (forall pre l l' post, readlines text = pre ++ l :: l' :: post ->
     exists body, l = body +:+ String LF EmptyString) /\
  (readlines text = [] <-> text = EmptyString).
Proof.
  split; [|split; [|split]].
  - induction text as [|c rest IH]; [done|]. cbn [readlines].
    destruct (Ascii.eqb c LF) eqn:E.
    + cbn [concat_lines foldr]. fold (concat_lines (readlines rest)).
      by rewrite IH.
    + destruct (readlines rest) as [|l ls].
      * cbn [concat_lines foldr] in *. by rewrite <- IH.
      * cbn [concat_lines foldr] in *. by rewrite str_app_cons, IH.
  - induction text as [|c rest IH]; [by constructor|]. cbn [readlines].
    destruct (Ascii.eqb c LF) eqn:E.
    + apply Ascii.eqb_eq in E as ->. constructor; [|done].
      exists EmptyString. split; [done|by left].
    + assert (not_lf c = true) as Hc by (unfold not_lf; by rewrite E).
      destruct (readlines rest) as [|l ls].
      * constructor; [|done]. exists (String c EmptyString).
        cbn [string_forallb]. rewrite Hc. split; [done|by right].
      * apply Forall_cons in IH as [(body & Hb & Hl) IH].
        constructor; [|done]. exists (String c body).
        cbn [string_forallb]. rewrite Hc, Hb. split; [done|].
        destruct Hl as [-> | [-> _]]; [by left|by right].
  - intros pre l l' post. apply readlines_terminated.
  - split; [|by intros ->]. destruct text as [|c rest]; [done|].
    cbn [readlines].
    by destruct (Ascii.eqb c LF), (readlines rest).
Qed.

Lemma app_lf_prefix (m body t : string) :
  string_forallb not_lf m = true ->
  body +:+ String LF EmptyString = m +:+ t ->
  exists t', body = m +:+ t' /\ t = t' +:+ String LF EmptyString.
Proof.
  revert body. induction m as [|c m IH]; intros body; cbn [string_forallb].
  - intros _ H. by exists body.
  - intros [Hc Hm]%andb_true_iff. destruct body as [|d body].
    + intros [= <- _]. done.
    + rewrite !str_app_cons. intros [= -> H].
      destruct (IH _ Hm H) as (t' & -> & ->). by exists t'.
Qed.

(** X9: [exec] is given one line of the script and no more: whatever the
    loop selects is the coding header followed by [__version__] and the
    rest of a single line of the file, a text with no line feed other than
    the one that may end it. *)
Theorem exec_receives_one_line (text src : string) :
  scan (readlines text) None = Some src ->
  exists tail,
    string_forallb not_lf tail = true /\
    (src = coding_header +:+ marker +:+ tail /\
       marker +:+ tail ∈ readlines text \/
     src = coding_header +:+ marker +:+ tail +:+ String LF EmptyString /\
       marker +:+ tail +:+ String LF EmptyString ∈ readlines text).
Proof.
  intros Hs.
  destruct (scan_some _ _ _ Hs) as [?|(line & Hin & Hfind & Heq)]; [done|].
  apply (inj Some) in Heq as ->.
  destruct (readlines_partition text) as (_ & Hshape & _).
  rewrite Forall_forall in Hshape.
  destruct (Hshape _ Hin) as (body & Hbody & Hline).
  apply find_zero, prefix_inv in Hfind as [t Ht].
  destruct Hline as [Hl | [Hl _]].
  - rewrite Hl in Ht. apply app_lf_prefix in Ht as (t' & -> & ->); [|done].
    exists t'. rewrite string_forallb_app in Hbody.
    apply andb_true_iff in Hbody as [_ Hbody]. split; [done|].
    right. rewrite <- (str_app_assoc marker t'), <- Hl. by split.
  - subst line. subst body. exists t. rewrite string_forallb_app in Hbody.
    apply andb_true_iff in Hbody as [_ Hbody]. split; [done|].
    left. by split.
Qed.

Lemma exec_receives_one_line_witness :
  exists tail,
    string_forallb not_lf tail = true /\
    (format "__version__ = '1.2.3'
" = coding_header +:+ marker +:+ tail /\
       marker +:+ tail ∈ readlines script_with_version \/
     format "__version__ = '1.2.3'
" = coding_header +:+ marker +:+ tail +:+ String LF EmptyString /\
       marker +:+ tail +:+ String LF EmptyString
         ∈ readlines script_with_version).
Proof.
  apply (exec_receives_one_line script_with_version
           (format "__version__ = '1.2.3'
")).
  reflexivity.
Defined.

(** ** A version line with an unclosed literal *)

Lemma lex_unterminated (q : ascii) (acc body : string) :
  string_forallb (literal_char q) body = true ->
  lex (InString q acc) body = LexSyntaxError.
Proof.
  revert acc. induction body as [|c body IH]; intros acc; [done|].
  cbn [string_forallb].
  intros [(_ & Hq & Hb & _)%literal_char_inv Hbody]%andb_true_iff.
  cbn [lex]. rewrite Hq, Hb. by apply IH.
Qed.

Lemma lex_open_core (q : ascii) (ws1 ws2 body : string) :
  is_quote q = true ->
  string_forallb is_blank ws1 = true ->
  string_forallb is_blank ws2 = true ->
  string_forallb (literal_char q) body = true ->
  lex Between (open_core q ws1 ws2 body) = LexSyntaxError.
Proof.
  intros Hq Hws1 Hws2 Hbody. unfold open_core. rewrite lex_marker.
  rewrite lex_name_equals by (done || by apply rhs_not_equals).
  rewrite lex_blanks by done.
  rewrite lex_open_quote, lex_unterminated; [done..|].
  intros s' ->. cbn [string_forallb] in Hbody.
  apply andb_true_iff in Hbody as [(_ & Hc & _)%literal_char_inv _].
  by rewrite Ascii.eqb_refl in Hc.
Qed.

Lemma open_core_chars (q : ascii) (ws1 ws2 body : string) :
  is_quote q = true ->
  string_forallb is_blank ws1 = true ->
  string_forallb is_blank ws2 = true ->
  string_forallb (literal_char q) body = true ->
  string_forallb comment_char (open_core q ws1 ws2 body) = true.
Proof.
  intros Hq Hws1 Hws2 Hbody.
  assert (forall s, string_forallb is_blank s = true ->
                    string_forallb comment_char s = true) as Hblank.
  { intros s. apply string_forallb_impl. intros c Hc.
    by destruct (is_blank_inv _ Hc) as [-> | ->]. }
  assert (comment_char q = true) as Hqc
    by (by destruct (is_quote_inv _ Hq) as [-> | ->]).
  assert (string_forallb comment_char body = true) as Hb.
  { revert Hbody. apply string_forallb_impl. intros c Hc.
    apply literal_char_inv in Hc as (Hs & _ & _ & Hlf).
    unfold comment_char. by rewrite Hs, Hlf. }
  unfold open_core. rewrite !string_forallb_app. cbn [string_forallb].
  rewrite !string_forallb_app. cbn [string_forallb].
  rewrite Hqc, Hb, (Hblank ws1), (Hblank ws2) by done. reflexivity.
Qed.

(** X10: when the first line of the script that starts with [__version__]
    opens a string literal and never closes it, the line does not compile:
    [get_version] raises [SyntaxError], and so does the module body,
    before [setup] is called. *)
Theorem get_version_unclosed_literal
    (fs : gmap string file) (chars ws1 ws2 body eol : string) (q : ascii)
    (pre post : list string) :
  fs !! "thermod-monitor-mqtt" = Some (TextFile chars) ->
  readlines (universal_newlines chars) =
    pre ++ (open_core q ws1 ws2 body +:+ eol) :: post ->
  Forall (fun l => String.prefix marker l = false) pre ->
  is_quote q = true ->
  string_forallb is_blank ws1 = true ->
  string_forallb is_blank ws2 = true ->
  string_forallb (literal_char q) body = true ->
  eol = EmptyString \/ eol = String LF EmptyString ->
  get_version python fs = Raise SyntaxError /\
  setup_py python fs = Raise SyntaxError.
Proof.
  intros Hfs Hlines Hpre Hq Hws1 Hws2 Hbody Heol.
  pose proof (open_core_chars q ws1 ws2 body Hq Hws1 Hws2 Hbody) as Hchars.
  pose proof (lex_open_core q ws1 ws2 body Hq Hws1 Hws2 Hbody) as Hlex.
  set (c := open_core q ws1 ws2 body) in *.
  assert (String.prefix marker (c +:+ eol) = true) as Hline
    by (unfold c, open_core; by rewrite str_app_assoc, prefix_app).
  assert (string_forallb is_source_char c = true) as Hsrc.
  { revert Hchars. apply string_forallb_impl.
    by intros ? [? _]%comment_char_inv. }
  assert (compile (format (c +:+ eol)) = Raise SyntaxError) as Hcomp.
  { unfold compile, format.
    change (coding_header +:+ c +:+ eol)
      with ("# -*- coding: utf-8 -*-" +:+ String LF (c +:+ eol)).
    assert (string_forallb is_source_char
              ("# -*- coding: utf-8 -*-" +:+ String LF (c +:+ eol)) = true)
      as ->.
    { rewrite string_forallb_app. cbn [string_forallb].
      rewrite string_forallb_app, Hsrc. by destruct Heol as [-> | ->]. }
    rewrite split_lines_lf by done.
    assert (compile_line c = Raise SyntaxError) as Hc
      by (unfold compile_line; by rewrite Hlex).
    destruct Heol as [-> | ->].
    - rewrite str_app_nil_r, split_lines_one by done.
      cbn [compile_lines]. by rewrite Hc.
    - rewrite split_lines_lf by done. cbn [compile_lines]. by rewrite Hc. }
  assert (get_version python fs = Raise SyntaxError) as Hv.
  { rewrite (get_version_selected python fs chars (c +:+ eol) pre post)
      by done.
    unfold python. by rewrite Hcomp. }
  split; [done|]. by apply setup_py_raise.
Qed.

Lemma get_version_unclosed_literal_witness :
  get_version python {[ "thermod-monitor-mqtt" := TextFile script_unterminated ]}
    = Raise SyntaxError /\
  setup_py python {[ "thermod-monitor-mqtt" := TextFile script_unterminated ]}
    = Raise SyntaxError.
Proof.
  apply (get_version_unclosed_literal
           {[ "thermod-monitor-mqtt" := TextFile script_unterminated ]}
           script_unterminated " " " " "1.2.3" (String LF EmptyString) "'"
           ["#!/usr/bin/env python3
"] []).
  - reflexivity.
  - reflexivity.
  - repeat constructor.
  - reflexivity.
  - reflexivity.
  - reflexivity.
  - reflexivity.
  - by right.
Defined.

(** ** The other two requirements *)

(** X11: read as version specifiers, the second and third entries of
    [install_requires] name [requests] and [paho-mqtt] and accept the
    releases from 2.20.0 and from 1.5.0 on, compared number by number (so
    [requests] 2.3.0 is refused, 3 being less than 20). *)
Theorem requests_and_paho_minimum
    (E : interpreter) (fs : gmap string file) (kw : setup_kwargs) :
  setup_py E fs = Return kw ->
  exists r p,
    install_requires kw !! 1%nat = Some r /\
    install_requires kw !! 2%nat = Some p /\
    parse_requirement r = Some ("requests", [(OpGe, [2; 20; 0])])%nat /\
    parse_requirement p = Some ("paho-mqtt", [(OpGe, [1; 5; 0])])%nat /\
    (forall major minor micro : nat,
       satisfies_all [major; minor; micro] [(OpGe, [2; 20; 0])]%nat = true <->
       (2 < major \/ major = 2 /\ 20 <= minor)%nat) /\
    (forall major minor micro : nat,
       satisfies_all [major; minor; micro] [(OpGe, [1; 5; 0])]%nat = true <->
       (1 < major \/ major = 1 /\ 5 <= minor)%nat).
Proof.
  intros (_ & _ & _ & _ & ->)%setup_py_inv.
  exists "requests >=2.20.0", "paho-mqtt >=1.5.0".
  split; [done|]. split; [done|]. split; [by vm_compute|].
  split; [by vm_compute|].
  assert (forall a b micro x y : nat,
    satisfies_all [a; b; micro] [(OpGe, [x; y; 0])]%nat = true <->
    (x < a \/ a = x /\ y <= b)%nat) as Hge.
  { intros a b micro x y. unfold satisfies_all. cbn [forallb].
    rewrite andb_true_r, satisfies_ge, (release_compare_cons a x).
    destruct (Nat.compare_spec a x) as [->|?|?].
    - rewrite (release_compare_cons b y).
      destruct (Nat.compare_spec b y) as [->|?|?].
      + split; [intros _; right; split; [done|lia]|intros _].
        apply (release_compare_zeros [micro]).
      + split; [done|lia].
      + split; [intros _; right; split; [done|lia]|done].
    - split; [done|lia].
    - split; [intros _; by left|done]. }
  split; intros major minor micro; apply Hge.
Qed.

Lemma requests_and_paho_minimum_witness :
  exists kw, setup_py python fs_with_version = Return kw /\
  exists r p,
    install_requires kw !! 1%nat = Some r /\
    install_requires kw !! 2%nat = Some p /\
    parse_requirement r = Some ("requests", [(OpGe, [2; 20; 0])])%nat /\
    parse_requirement p = Some ("paho-mqtt", [(OpGe, [1; 5; 0])])%nat /\
    (forall major minor micro : nat,
       satisfies_all [major; minor; micro] [(OpGe, [2; 20; 0])]%nat = true <->
       (2 < major \/ major = 2 /\ 20 <= minor)%nat) /\
    (forall major minor micro : nat,
       satisfies_all [major; minor; micro] [(OpGe, [1; 5; 0])]%nat = true <->
       (1 < major \/ major = 1 /\ 5 <= minor)%nat).
Proof.
  eexists. split; [reflexivity|].
  apply (requests_and_paho_minimum python fs_with_version). reflexivity.
Defined.
